(** * revenuecat_sdk: a shallow embedding of the client and its checked properties

    The development follows the package layout of the repository:

    - [Py]        the fragment of Python's run-time values and built-in
                  behaviour the client relies on (truthiness, iteration,
                  subscripting, attribute access, keyword calls, [json.dumps]);
    - [Enums]     [enums.py];
    - [Utils]     [utils.py] ([encode], [to_timestamp]);
    - [Response]  [response.py] (the [NamedTuple] records);
    - [Client]    [client.py] (the [Client] class), over an explicit world
                  that logs every invocation of the HTTP transport.

    A Python [str] is represented by its UTF-8 encoding, a [string] of bytes;
    a Python [float] is an IEEE-754 binary64 number, Rocq's primitive [float]. *)

From Stdlib Require Import ZArith NArith List String Ascii Bool Lia Floats.
Import ListNotations.
Open Scope string_scope.

Set Implicit Arguments.
Set Warnings "-register-all".

(* ================================================================== *)
(** * Exceptions and fallible computations *)

(** The exceptions that can leave the client.  [Exception_] is the builtin
    [Exception] raised with a message by [client.py] itself. *)
Inductive exn : Type :=
| Exception_ (msg : string)
| TypeError
| AttributeError
| KeyError (key : string)
| ValueError
| StopIteration
| JSONDecodeError
| Unavailable
| RevenueCatError.

Inductive result (A : Type) : Type :=
| Ok (a : A)
| Raise (e : exn).

Arguments Ok {A} a.
Arguments Raise {A} e.

Definition rbind {A B} (r : result A) (k : A -> result B) : result B :=
  match r with
  | Ok a => k a
  | Raise e => Raise e
  end.

Declare Scope result_scope.
Delimit Scope result_scope with res.
Notation "x <- c ;; k" := (rbind c (fun x => k))
  (at level 61, c at next level, right associativity) : result_scope.

Definition is_ok {A} (r : result A) : bool :=
  match r with Ok _ => true | Raise _ => false end.

(** [mapR f l] runs [f] over [l] from left to right and stops at the first
    exception, as a Python [for] loop that appends to a list does. *)
Fixpoint mapR {A B} (f : A -> result B) (l : list A) : result (list B) :=
  match l with
  | [] => Ok []
  | x :: r =>
      (y <- f x ;; ys <- mapR f r ;; Ok (y :: ys))%res
  end.

(* ================================================================== *)
(** * enums.py *)

Module Enums.

Inductive AttributionSource :=
| APPLE_SEARCH_ADS | ADJUST | APPSFLYER | BRANCH | TENJIN | FACEBOOK.

Inductive PaymentMode := PAY_AS_YOU_GO | PAY_UP_FRONT | FREE_TRIAL.

Inductive PeriodType := NORMAL | TRIAL | INTRO.

Inductive Platform := IOS | ANDROID | MAC_OS | UI_KIT_FOR_MAC.

Inductive PromotionDuration :=
| DAILY | WEEKLY | MONTHLY | TWO_MONTH | THREE_MONTH | SIX_MONTH
| YEARLY | LIFETIME.

Inductive Store :=
| APP_STORE | MAC_APP_STORE | PLAY_STORE | STRIPE | PROMOTIONAL.

Inductive OwnershipType := PURCHASED | FAMILY_SHARED.

(** A Python [Enum] class with string values: its members in definition
    order and the [.value] of each. *)
Record StrEnum (E : Type) : Type := {
  members : list E;
  value : E -> string
}.

(** [E(v)]: the call of an [Enum] class on a value looks the value up
    among the members' values, by equality, and raises [ValueError] when
    no member has it. *)
Definition lookup_by_value {E} (cls : StrEnum E) (v : string) : result E :=
  match find (fun m => String.eqb (value cls m) v) (members cls) with
  | Some m => Ok m
  | None => Raise ValueError
  end.

Definition wire_values {E} (cls : StrEnum E) : list string :=
  map (value cls) (members cls).

Definition PaymentMode_cls : StrEnum PaymentMode := {|
  members := [PAY_AS_YOU_GO; PAY_UP_FRONT; FREE_TRIAL];
  value m := match m with
             | PAY_AS_YOU_GO => "0"
             | PAY_UP_FRONT => "1"
             | FREE_TRIAL => "2"
             end |}.

Definition PeriodType_cls : StrEnum PeriodType := {|
  members := [NORMAL; TRIAL; INTRO];
  value m := match m with
             | NORMAL => "normal"
             | TRIAL => "trial"
             | INTRO => "intro"
             end |}.

Definition Platform_cls : StrEnum Platform := {|
  members := [IOS; ANDROID; MAC_OS; UI_KIT_FOR_MAC];
  value m := match m with
             | IOS => "ios"
             | ANDROID => "android"
             | MAC_OS => "macos"
             | UI_KIT_FOR_MAC => "uikitformac"
             end |}.

Definition PromotionDuration_cls : StrEnum PromotionDuration := {|
  members := [DAILY; WEEKLY; MONTHLY; TWO_MONTH; THREE_MONTH; SIX_MONTH;
              YEARLY; LIFETIME];
  value m := match m with
             | DAILY => "daily"
             | WEEKLY => "weekly"
             | MONTHLY => "monthly"
             | TWO_MONTH => "two_month"
             | THREE_MONTH => "three_month"
             | SIX_MONTH => "six_month"
             | YEARLY => "yearly"
             | LIFETIME => "lifetime"
             end |}.

Definition Store_cls : StrEnum Store := {|
  members := [APP_STORE; MAC_APP_STORE; PLAY_STORE; STRIPE; PROMOTIONAL];
  value m := match m with
             | APP_STORE => "app_store"
             | MAC_APP_STORE => "mac_app_store"
             | PLAY_STORE => "play_store"
             | STRIPE => "stripe"
             | PROMOTIONAL => "promotional"
             end |}.

Definition OwnershipType_cls : StrEnum OwnershipType := {|
  members := [PURCHASED; FAMILY_SHARED];
  value m := match m with
             | PURCHASED => "PURCHASED"
             | FAMILY_SHARED => "FAMILY_SHARED"
             end |}.

(** [AttributionSource] is the one enumeration with integer values. *)
Definition AttributionSource_value (m : AttributionSource) : Z :=
  match m with
  | APPLE_SEARCH_ADS => 0
  | ADJUST => 1
  | APPSFLYER => 2
  | BRANCH => 3
  | TENJIN => 4
  | FACEBOOK => 5
  end%Z.

Definition AttributionSource_members : list AttributionSource :=
  [APPLE_SEARCH_ADS; ADJUST; APPSFLYER; BRANCH; TENJIN; FACEBOOK].

(** [AttributionSource(v)], the lookup by value of that class. *)
Definition AttributionSource_lookup (v : Z) : result AttributionSource :=
  match find (fun m => Z.eqb (AttributionSource_value m) v)
          AttributionSource_members with
  | Some m => Ok m
  | None => Raise ValueError
  end.

(** A member of any of the enumeration classes, as a run-time object. *)
Inductive member : Type :=
| OfAttributionSource (m : AttributionSource)
| OfPaymentMode (m : PaymentMode)
| OfPeriodType (m : PeriodType)
| OfPlatform (m : Platform)
| OfPromotionDuration (m : PromotionDuration)
| OfStore (m : Store)
| OfOwnershipType (m : OwnershipType).

End Enums.

(* ================================================================== *)
(** * Python values *)

Module Py.

(** JSON documents, as [json.dumps] writes and [json.loads] reads them.
    An object keeps its members in document order. *)
Inductive json : Type :=
| JNull
| JBool (b : bool)
| JInt (z : Z)
| JFloat (f : float)
| JStr (s : string)
| JArr (l : list json)
| JObj (kvs : list (string * json)).

(** Run-time values.  [PyDict] keeps insertion order (keys are [str]);
    [PyTuple] is an instance of a [NamedTuple] class, with its class name
    and its fields in declaration order; [PyEnum] is an enumeration
    member. *)
Inductive value : Type :=
| PyNone
| PyBool (b : bool)
| PyInt (z : Z)
| PyFloat (f : float)
| PyStr (s : string)
| PyList (l : list value)
| PyDict (kvs : list (string * value))
| PyTuple (cls : string) (fields : list (string * value))
| PyEnum (m : Enums.member).

(** Association-list lookup: the first binding of [k]. *)
Fixpoint assoc {A} (k : string) (kvs : list (string * A)) : option A :=
  match kvs with
  | [] => None
  | (k', v) :: r => if String.eqb k' k then Some v else assoc k r
  end.

(** [d.update({k: v})] and [d[k] = v]: replace in place, else append. *)
Fixpoint dict_set {A} (k : string) (v : A) (kvs : list (string * A))
  : list (string * A) :=
  match kvs with
  | [] => [(k, v)]
  | (k', v') :: r =>
      if String.eqb k' k then (k', v) :: r else (k', v') :: dict_set k v r
  end.

(** What [json.loads] builds from a document. *)
Fixpoint of_json (j : json) : value :=
  match j with
  | JNull => PyNone
  | JBool b => PyBool b
  | JInt z => PyInt z
  | JFloat f => PyFloat f
  | JStr s => PyStr s
  | JArr l => PyList (map of_json l)
  | JObj kvs => PyDict (map (fun kv => (fst kv, of_json (snd kv))) kvs)
  end.

(** [json.dumps(v)] with the default encoder, up to the concrete syntax of
    the text: [None] is written as [null], a tuple (so a [NamedTuple]) as
    an array of its items, and an object of any other class, such as an
    [Enum] member, raises [TypeError]. *)
Fixpoint dumps (v : value) : result json :=
  match v with
  | PyNone => Ok JNull
  | PyBool b => Ok (JBool b)
  | PyInt z => Ok (JInt z)
  | PyFloat f => Ok (JFloat f)
  | PyStr s => Ok (JStr s)
  | PyList l =>
      (js <- (fix go (l : list value) : result (list json) :=
                match l with
                | [] => Ok []
                | x :: r => (j <- dumps x ;; js <- go r ;; Ok (j :: js))
                end) l ;;
       Ok (JArr js))%res
  | PyDict kvs =>
      (js <- (fix go (l : list (string * value))
                : result (list (string * json)) :=
                match l with
                | [] => Ok []
                | (k, x) :: r =>
                    (j <- dumps x ;; js <- go r ;; Ok ((k, j) :: js))
                end) kvs ;;
       Ok (JObj js))%res
  | PyTuple _ fields =>
      (js <- (fix go (l : list (string * value)) : result (list json) :=
                match l with
                | [] => Ok []
                | (_, x) :: r => (j <- dumps x ;; js <- go r ;; Ok (j :: js))
                end) fields ;;
       Ok (JArr js))%res
  | PyEnum _ => Raise TypeError
  end.

(** [bool(v)], the test of an [if]. *)
Definition truthy (v : value) : bool :=
  match v with
  | PyNone => false
  | PyBool b => b
  | PyInt z => negb (Z.eqb z 0)
  | PyFloat f => negb (PrimFloat.eqb f 0%float)
  | PyStr s => negb (String.eqb s "")
  | PyList l => match l with [] => false | _ => true end
  | PyDict kvs => match kvs with [] => false | _ => true end
  | PyTuple _ fields => match fields with [] => false | _ => true end
  | PyEnum _ => true
  end.

(** A byte that continues a UTF-8 sequence: [10xxxxxx]. *)
Definition utf8_continuation (c : ascii) : bool :=
  let n := N_of_ascii c in (128 <=? n)%N && (n <? 192)%N.

(** The characters of a [str]: every lead byte with the continuation bytes
    that follow it. *)
Fixpoint utf8_chars_from (cur : string) (s : string) : list string :=
  match s with
  | EmptyString => [cur]
  | String c r =>
      if utf8_continuation c
      then utf8_chars_from (cur ++ String c EmptyString) r
      else cur :: utf8_chars_from (String c EmptyString) r
  end.

Definition utf8_chars (s : string) : list string :=
  match s with
  | EmptyString => []
  | String c r => utf8_chars_from (String c EmptyString) r
  end.

(** [list(iter(v))]: a list yields its items, a dict its keys, a str its
    characters, a tuple its items; any other value is not iterable. *)
Definition iter (v : value) : result (list value) :=
  match v with
  | PyList l => Ok l
  | PyDict kvs => Ok (map (fun kv => PyStr (fst kv)) kvs)
  | PyStr s => Ok (map PyStr (utf8_chars s))
  | PyTuple _ fields => Ok (map snd fields)
  | _ => Raise TypeError
  end.

(** [next(it)] on a fresh iterator. *)
Definition next (items : list value) : result value :=
  match items with
  | x :: _ => Ok x
  | [] => Raise StopIteration
  end.

(** [v[k]] for a [str] subscript [k]: a dict looks the key up and raises
    [KeyError]; sequences take integers or slices only, and the remaining
    values are not subscriptable. *)
Definition getitem (v : value) (k : string) : result value :=
  match v with
  | PyDict kvs =>
      match assoc k kvs with
      | Some x => Ok x
      | None => Raise (KeyError k)
      end
  | _ => Raise TypeError
  end.

(** [v.name]: a [NamedTuple] instance has its fields, an enumeration member
    has [value] (its [name] is not needed here); the built-in types have no
    data attributes. *)
Definition enum_value (m : Enums.member) : value :=
  match m with
  | Enums.OfAttributionSource a => PyInt (Enums.AttributionSource_value a)
  | Enums.OfPaymentMode a => PyStr (Enums.value Enums.PaymentMode_cls a)
  | Enums.OfPeriodType a => PyStr (Enums.value Enums.PeriodType_cls a)
  | Enums.OfPlatform a => PyStr (Enums.value Enums.Platform_cls a)
  | Enums.OfPromotionDuration a =>
      PyStr (Enums.value Enums.PromotionDuration_cls a)
  | Enums.OfStore a => PyStr (Enums.value Enums.Store_cls a)
  | Enums.OfOwnershipType a => PyStr (Enums.value Enums.OwnershipType_cls a)
  end.

Definition getattr (v : value) (name : string) : result value :=
  match v with
  | PyTuple _ fields =>
      match assoc name fields with
      | Some x => Ok x
      | None => Raise AttributeError
      end
  | PyEnum m =>
      if String.eqb name "value" then Ok (enum_value m)
      else Raise AttributeError
  | _ => Raise AttributeError
  end.

(** Unpacking [v] into keywords in a call: [v] must be a mapping. *)
Definition kwargs (v : value) : result (list (string * value)) :=
  match v with
  | PyDict kvs => Ok kvs
  | _ => Raise TypeError
  end.

(** A keyword the callee does not declare raises [TypeError]. *)
Definition only_fields (names : list string) (kw : list (string * value))
  : result unit :=
  if forallb (fun kv => existsb (String.eqb (fst kv)) names) kw
  then Ok tt else Raise TypeError.

(** A parameter without default that no keyword supplies raises
    [TypeError]. *)
Definition required (kw : list (string * value)) (name : string)
  : result value :=
  match assoc name kw with
  | Some x => Ok x
  | None => Raise TypeError
  end.

Definition optional (kw : list (string * value)) (name : string)
  (default : value) : value :=
  match assoc name kw with
  | Some x => x
  | None => default
  end.

End Py.

(* ================================================================== *)
(** * utils.py *)

Module Utils.

(** ** [urllib.parse.quote]

    [quote(string)] encodes the [str] as UTF-8 and hands the bytes to
    [quote_from_bytes] with [safe = '/']: a byte that is an ASCII letter, a
    digit, one of [_.-~] or a member of [safe] is copied, and any other byte
    is written as [%XX] with two upper-case hexadecimal digits. *)

Definition always_safe (c : ascii) : bool :=
  let n := N_of_ascii c in
  ((65 <=? n) && (n <=? 90) || (97 <=? n) && (n <=? 122)
   || (48 <=? n) && (n <=? 57))%N
  || existsb (Ascii.eqb c) (list_ascii_of_string "_.-~").

Definition is_safe (safe : string) (c : ascii) : bool :=
  always_safe c || existsb (Ascii.eqb c) (list_ascii_of_string safe).

Definition hex_digit (n : N) : ascii :=
  nth (N.to_nat n) (list_ascii_of_string "0123456789ABCDEF") "0"%char.

Definition quote_byte (safe : string) (c : ascii) : string :=
  if is_safe safe c then String c EmptyString
  else let n := N_of_ascii c in
       String "%" (String (hex_digit (n / 16)) (String (hex_digit (n mod 16))
                                                  EmptyString)).

Fixpoint quote_from_bytes (safe : string) (bs : string) : string :=
  match bs with
  | EmptyString => EmptyString
  | String c r => quote_byte safe c ++ quote_from_bytes safe r
  end.

Definition quote (s : string) : string := quote_from_bytes "/" s.

Definition encode (value : string) : string := quote value.

(** ** Percent-decoding

    The inverse direction is not part of the package; it is the decoding of
    RFC 3986 (Python's [unquote_to_bytes]): [%] followed by two hexadecimal
    digits, of either case, stands for one byte, and everything else stands
    for itself. *)

Definition hex_value (c : ascii) : option N :=
  let n := N_of_ascii c in
  if ((48 <=? n) && (n <=? 57))%N then Some (n - 48)%N
  else if ((65 <=? n) && (n <=? 70))%N then Some (n - 55)%N
  else if ((97 <=? n) && (n <=? 102))%N then Some (n - 87)%N
  else None.

Fixpoint percent_decode (s : string) : string :=
  match s with
  | EmptyString => EmptyString
  | String c r =>
      if Ascii.eqb c "%" then
        match r with
        | String h (String l rest) =>
            match hex_value h, hex_value l with
            | Some a, Some b =>
                String (ascii_of_N (16 * a + b)) (percent_decode rest)
            | _, _ => String c (percent_decode r)
            end
        | _ => String c (percent_decode r)
        end
      else String c (percent_decode r)
  end.

(** The path segments of a URL path: the pieces between the separators. *)
Fixpoint segments_from (cur : string) (s : string) : list string :=
  match s with
  | EmptyString => [cur]
  | String c r =>
      if Ascii.eqb c "/" then cur :: segments_from EmptyString r
      else segments_from (cur ++ String c EmptyString) r
  end.

Definition segments (path : string) : list string :=
  segments_from EmptyString path.

(** ** [to_timestamp]

    [datetime.timestamp()] belongs to the standard library and depends on
    the time zone of the process for a naive value; it is a parameter here.
    The multiplication is the binary64 one. *)
Definition to_timestamp {datetime : Type} (timestamp : datetime -> float)
  (value : datetime) : float :=
  (timestamp value * 1000)%float.

End Utils.

(* ================================================================== *)
(** * response.py *)

Module Response.

Local Open Scope result_scope.

(** The records below are the [NamedTuple] classes the client instantiates.
    A [NamedTuple] does not check the types of its fields at run time, so
    each field holds whatever value the call supplied. *)

Record SubscriberAttribute : Type := {
  value : string;
  updated_at_ms : Z
}.

(** A [SubscriberAttribute] handed to the client, as a run-time object. *)
Definition SubscriberAttribute_object (a : SubscriberAttribute) : Py.value :=
  Py.PyTuple "SubscriberAttribute"
    [("value", Py.PyStr (value a)); ("updated_at_ms", Py.PyInt (updated_at_ms a))].

Record Subscriber : Type := {
  original_app_user_id : Py.value;
  original_application_version : Py.value;
  first_seen : Py.value;
  last_seen : Py.value;
  management_url : Py.value;
  original_purchase_date : Py.value;
  other_purchases : Py.value;
  entitlements : Py.value;
  subscriptions : Py.value;
  non_subscriptions : Py.value;
  subscriber_attributes : Py.value
}.

Record Package : Type := {
  identifier : Py.value;
  platform_product_identifier : Py.value
}.

Record Offering : Type := {
  description : Py.value;
  offering_identifier : Py.value;
  packages : list Package
}.

Record Offerings : Type := {
  current_offering_id : Py.value;
  offerings : list Offering
}.

Definition Subscriber_fields : list string :=
  ["original_app_user_id"; "original_application_version"; "first_seen";
   "last_seen"; "management_url"; "original_purchase_date";
   "other_purchases"; "entitlements"; "subscriptions"; "non_subscriptions";
   "subscriber_attributes"].

(** The field names of the record classes that hold the entries of a
    subscriber's nested maps. *)
Definition Entitlement_fields : list string :=
  ["expires_date"; "purchase_date"; "product_identifier"].

Definition Subscription_fields : list string :=
  ["expires_date"; "purchase_date"; "original_purchase_date";
   "ownership_type"; "period_type"; "store"; "is_sandbox";
   "unsubscribe_detected_at"; "billing_issues_detected_at"].

Definition NonSubscription_fields : list string :=
  ["id"; "purchase_date"; "store"; "is_sandbox"].

Definition SubscriberAttribute_fields : list string :=
  ["value"; "updated_at_ms"].

(** [v] is an instance of the [NamedTuple] class [cls]. *)
Definition is_instance (cls : string) (v : Py.value) : bool :=
  match v with
  | Py.PyTuple c _ => String.eqb c cls
  | _ => false
  end.

(** [Subscriber] called on the keywords [kw]: every field but [subscriber_attributes], which
    defaults to [None], must be supplied, and nothing else may be. *)
Definition Subscriber_new (kw : list (string * Py.value)) : result Subscriber :=
  _ <- Py.only_fields Subscriber_fields kw ;;
  a1 <- Py.required kw "original_app_user_id" ;;
  a2 <- Py.required kw "original_application_version" ;;
  a3 <- Py.required kw "first_seen" ;;
  a4 <- Py.required kw "last_seen" ;;
  a5 <- Py.required kw "management_url" ;;
  a6 <- Py.required kw "original_purchase_date" ;;
  a7 <- Py.required kw "other_purchases" ;;
  a8 <- Py.required kw "entitlements" ;;
  a9 <- Py.required kw "subscriptions" ;;
  a10 <- Py.required kw "non_subscriptions" ;;
  Ok {| original_app_user_id := a1;
        original_application_version := a2;
        first_seen := a3;
        last_seen := a4;
        management_url := a5;
        original_purchase_date := a6;
        other_purchases := a7;
        entitlements := a8;
        subscriptions := a9;
        non_subscriptions := a10;
        subscriber_attributes := Py.optional kw "subscriber_attributes" Py.PyNone |}.

(** [Package] called on the keywords [kw]. *)
Definition Package_new (kw : list (string * Py.value)) : result Package :=
  _ <- Py.only_fields ["identifier"; "platform_product_identifier"] kw ;;
  a1 <- Py.required kw "identifier" ;;
  a2 <- Py.required kw "platform_product_identifier" ;;
  Ok {| identifier := a1; platform_product_identifier := a2 |}.

(** [Offering] called on the keywords [kw] and [packages=packages]: a
    [packages] key inside [kw] is a second value for the same keyword, a
    [TypeError]. *)
Definition Offering_new (kw : list (string * Py.value)) (pkgs : list Package)
  : result Offering :=
  match Py.assoc "packages" kw with
  | Some _ => Raise TypeError
  | None =>
      _ <- Py.only_fields ["description"; "identifier"; "packages"] kw ;;
      a1 <- Py.required kw "description" ;;
      a2 <- Py.required kw "identifier" ;;
      Ok {| description := a1; offering_identifier := a2; packages := pkgs |}
  end.

End Response.
(* ================================================================== *)
(** * client.py *)

Module Client.

Import Response.

(** ** The HTTP transport and the rest of the environment *)

(** The arguments of one call of [self.session.request]: [headers] is the
    [headers=] argument, to which the session adds its own headers. *)
Record Request : Type := {
  method : string;
  url : string;
  headers : list (string * Py.value);
  data : option Py.json;
  timeout : Z
}.

(** The response object: its status and what its [json()] method gives,
    [None] when the body is not a JSON document and the method raises. *)
Record HttpResponse : Type := {
  status_code : Z;
  json : option Py.json
}.

(** What [requests.Session.request] can raise, as far as [make_request]
    tells the cases apart: [requests.ConnectionError], [requests.Timeout],
    or any other exception. *)
Inductive transport_error : Type :=
| ConnectionError
| Timeout
| OtherError.

Inductive outcome : Type :=
| Responds (r : HttpResponse)
| Fails (e : transport_error).

(** The libraries and the outside world the client runs against: the
    [datetime] class and the remote end of the session. *)
Class Runtime : Type := {
  datetime : Type;
  strptime : string -> string -> result datetime;
  datetime_ge : datetime -> datetime -> bool;
  timestamp : datetime -> float;
  session_request : Request -> outcome
}.

Section WithRuntime.

Context {RT : Runtime}.

(** The state a call runs in: the requests handed to the transport so far,
    oldest first, and the wall clock read by [datetime.now()]. *)
Record World : Type := {
  calls : list Request;
  now : datetime
}.

Definition M (A : Type) : Type := World -> result A * World.

Definition ret {A} (a : A) : M A := fun w => (Ok a, w).

Definition raise {A} (e : exn) : M A := fun w => (Raise e, w).

Definition lift {A} (r : result A) : M A := fun w => (r, w).

Definition bind {A B} (m : M A) (k : A -> M B) : M B :=
  fun w =>
    match m w with
    | (Ok a, w') => k a w'
    | (Raise e, w') => (Raise e, w')
    end.

(** [self.session.request(...)]: the one place where the network is used. *)
Definition send (q : Request) : M outcome :=
  fun w => (Ok (session_request q), {| calls := calls w ++ [q]; now := now w |}).

(** [datetime.now()]. *)
Definition datetime_now : M datetime := fun w => (Ok (now w), w).

Declare Scope world_scope.
Delimit Scope world_scope with world.
Notation "x <- c ;; k" := (bind c (fun x => k))
  (at level 61, c at next level, right associativity) : world_scope.
Local Open Scope world_scope.

(** ** The class *)

Record Client : Type := {
  public_key : option string;
  secret_key : option string
}.

Definition base_api_url : string := "https://api.revenuecat.com/v1".

(** [Client.__init__]. *)
Definition init (public_key secret_key : option string) : result Client :=
  match public_key, secret_key with
  | None, None => Raise (Exception_ "Either public key or secret key must be set")
  | _, _ => Ok {| public_key := public_key; secret_key := secret_key |}
  end.





(** [Response.raise_for_status()] raises [HTTPError] for a 4xx or a 5xx
    status and for nothing else. *)
Definition raise_for_status (r : HttpResponse) : bool :=
  ((400 <=? status_code r) && (status_code r <? 600))%Z.

(** [json.dumps(payload) if payload is not None else None]. *)
Definition dump_payload (payload : option Py.value) : result (option Py.json) :=
  match payload with
  | Some p =>
      match Py.dumps p with
      | Ok j => Ok (Some j)
      | Raise e => Raise e
      end
  | None => Ok None
  end.

Definition key_token (self : Client) (key : string) : option string :=
  if String.eqb key "public" then public_key self else secret_key self.

(** The headers of one request: [X-Platform] when a platform is given, and
    the bearer token of the requested key tier, which must be set. *)
Definition request_headers (self : Client) (platform : option Py.value)
  (key : option string) : result (list (string * Py.value)) :=
  let headers : list (string * Py.value) := [] in
  let headers :=
    match platform with
    | Some p => Py.dict_set "X-Platform" p headers
    | None => headers
    end in
  match key with
  | Some key =>
      match key_token self key with
      | None =>
          Raise (Exception_
                   ("This functionality requires " ++ key ++ " key to be set"))
      | Some token =>
          Ok (Py.dict_set "Authorization" (Py.PyStr ("Bearer " ++ token))
                headers)
      end
  | None => Ok headers
  end.

(** The [try] statement around the exchange, and the [return] after it,
    given what the transport did with the request. *)
Definition receive (r : outcome) : result Py.value :=
  match r with
  | Fails ConnectionError => Raise Unavailable
  | Fails Timeout => Raise Unavailable
  | Fails OtherError => Raise RevenueCatError
  | Responds response =>
      if raise_for_status response then Raise RevenueCatError
      else
        match json response with
        | Some j => Ok (Py.of_json j)
        | None => Raise JSONDecodeError
        end
  end.

Definition make_request (self : Client) (method path : string)
  (payload platform : option Py.value) (key : option string) (timeout : Z)
  : M Py.value :=
  let url := base_api_url ++ Utils.encode path in
  data <- lift (dump_payload payload) ;;
  headers <- lift (request_headers self platform key) ;;
  r <- send {| method := method; url := url; headers := headers;
               data := data; timeout := timeout |} ;;
  lift (receive r).

Definition generate_subscriber_response (data : Py.value) : result Subscriber :=
  (kw <- Py.kwargs data ;; Subscriber_new kw)%res.

(** The inner loop reads [data["offerings"]["packages"]], the outer one
    [data["offerings"]]; [offs] is the latter. *)
Definition generate_offerings_response (data : Py.value) : result Offerings :=
  (offs <- Py.getitem data "offerings" ;;
   items <- Py.iter offs ;;
   offerings <-
     mapR (fun o =>
             pk <- Py.getitem offs "packages" ;;
             ps <- Py.iter pk ;;
             packages <- mapR (fun p => kw <- Py.kwargs p ;; Package_new kw) ps ;;
             kw <- Py.kwargs o ;;
             Offering_new kw packages) items ;;
   cid <- Py.getitem data "current_offering_id" ;;
   Ok {| current_offering_id := cid; offerings := offerings |})%res.

Definition default_timeout : Z := 5.

Definition truthy_key (k : option string) : bool :=
  match k with
  | Some s => negb (String.eqb s "")
  | None => false
  end.

Definition get_subscriber_info (self : Client) (app_user_id : string)
  : M Subscriber :=
  let path := "/subscribers/" ++ app_user_id in
  let key := if truthy_key (secret_key self) then "secret" else "public" in
  data <- make_request self "GET" path None None (Some key) default_timeout ;;
  sub <- lift (Py.getitem data "subscriber") ;;
  lift (generate_subscriber_response sub).

Definition is_user_subscribed (self : Client) (app_user_id : string) : M bool :=
  info <- get_subscriber_info self app_user_id ;;
  if Py.truthy (subscriptions info) then
    items <- lift (Py.iter (subscriptions info)) ;;
    first <- lift (Py.next items) ;;
    raw <- lift (Py.getattr first "expires_date") ;;
    expires_date <-
      lift (match raw with
            | Py.PyStr s => strptime s "%Y-%m-%dT%H:%M:%SZ"
            | _ => Raise TypeError
            end) ;;
    t <- datetime_now ;;
    if datetime_ge expires_date t then ret true else ret false
  else ret false.

Definition attrs_object (attrs : list (string * SubscriberAttribute)) : Py.value :=
  Py.PyDict (map (fun kv => (fst kv, SubscriberAttribute_object (snd kv))) attrs).

Definition update_subscriber_attrs (self : Client) (app_user_id : string)
  (attrs : list (string * SubscriberAttribute)) : M unit :=
  let path := "/subscribers/" ++ app_user_id ++ "/attributes" in
  let payload := Py.PyDict [("attributes", attrs_object attrs)] in
  _ <- make_request self "POST" path (Some payload) None (Some "public")
         default_timeout ;;
  ret tt.

Definition delete_subscriber (self : Client) (app_user_id : string) : M Py.value :=
  let path := "/subscribers/" ++ app_user_id in
  data <- make_request self "DELETE" path None None (Some "secret")
            default_timeout ;;
  lift (Py.getitem data "app_user_id").

(** An argument whose default is [None]. *)
Definition or_none {A} (inj : A -> Py.value) (o : option A) : Py.value :=
  match o with
  | Some a => inj a
  | None => Py.PyNone
  end.

(** [str(b).lower()]. *)
Definition str_lower_bool (b : bool) : string :=
  if b then "true" else "false".

Definition create_purchase_payload (app_user_id fetch_token : string)
  (product_id : option string) (price : option float)
  (currency : option string) (payment_mode : option Enums.PaymentMode)
  (introductory_price : option float) (is_restore : bool)
  (presented_offering_identifier : option string)
  (attributes : option (list (string * SubscriberAttribute))) : Py.value :=
  Py.PyDict
    [("app_user_id", Py.PyStr app_user_id);
     ("fetch_token", Py.PyStr fetch_token);
     ("product_id", or_none Py.PyStr product_id);
     ("price", or_none Py.PyFloat price);
     ("currency", or_none Py.PyStr currency);
     ("payment_mode",
       or_none (fun m => Py.PyEnum (Enums.OfPaymentMode m)) payment_mode);
     ("introductory_price", or_none Py.PyFloat introductory_price);
     ("is_restore", Py.PyStr (str_lower_bool is_restore));
     ("presented_offering_identifier",
       or_none Py.PyStr presented_offering_identifier);
     ("attributes", or_none attrs_object attributes)].

Definition create_purchase (self : Client) (app_user_id : string)
  (platform : Enums.Platform) (fetch_token : string)
  (product_id : option string) (price : option float)
  (currency : option string) (payment_mode : option Enums.PaymentMode)
  (introductory_price : option float) (is_restore : bool)
  (presented_offering_identifier : option string)
  (attributes : option (list (string * SubscriberAttribute))) : M Subscriber :=
  let path := "/receipts" in
  let payload :=
    create_purchase_payload app_user_id fetch_token product_id price currency
      payment_mode introductory_price is_restore
      presented_offering_identifier attributes in
  data <- make_request self "POST" path (Some payload)
            (Some (Py.PyEnum (Enums.OfPlatform platform))) (Some "public")
            default_timeout ;;
  lift (generate_subscriber_response data).

(** The line break and the indentation that a triple-quoted literal spanning
    three source lines puts before and after its middle line. *)
Definition triple_quote_margin : string :=
  String (ascii_of_nat 10) "        ".

Definition grant_promotional_entitlement_path
  (app_user_id entitlement_identifier : string) : string :=
  triple_quote_margin ++ "/subscribers/" ++ app_user_id ++ "/entitlements/"
    ++ entitlement_identifier ++ "/promotional" ++ triple_quote_margin.

Definition grant_promotional_entitlement_payload
  (duration : Enums.PromotionDuration) (start_time : datetime) : Py.value :=
  let start_time_ms := Utils.to_timestamp timestamp start_time in
  Py.PyDict [("duration", Py.PyEnum (Enums.OfPromotionDuration duration));
             ("start_time_ms", Py.PyFloat start_time_ms)].

Definition grant_promotional_entitlement (self : Client)
  (app_user_id entitlement_identifier : string)
  (duration : Enums.PromotionDuration) (start_time : datetime) : M Subscriber :=
  let path :=
    grant_promotional_entitlement_path app_user_id entitlement_identifier in
  let payload := grant_promotional_entitlement_payload duration start_time in
  data <- make_request self "POST" path (Some payload) None (Some "secret")
            default_timeout ;;
  lift (generate_subscriber_response data).

Definition revoke_promotinal_entitlements (self : Client)
  (app_user_id entitlement_identifier : string) : M Subscriber :=
  let path :=
    triple_quote_margin ++ "/subscribers/" ++ app_user_id ++ "/entitlements/"
      ++ entitlement_identifier ++ "/revoke_promotionals"
      ++ triple_quote_margin in
  data <- make_request self "POST" path None None (Some "secret")
            default_timeout ;;
  lift (generate_subscriber_response data).

Definition revoke_google_subscription (self : Client)
  (app_user_id product_identifier : string) : M Subscriber :=
  let path := "/subscribers/" ++ app_user_id ++ "/subscriptions/"
                ++ product_identifier ++ "/revoke" in
  data <- make_request self "POST" path None None (Some "secret")
            default_timeout ;;
  lift (generate_subscriber_response data).

Definition defer_google_subscription_payload (expiry_time : datetime)
  : Py.value :=
  let expiry_time_ms := Utils.to_timestamp timestamp expiry_time in
  Py.PyDict [("expiry_time_ms", Py.PyFloat expiry_time_ms)].

Definition defer_google_subscription (self : Client)
  (app_user_id product_identifier : string) (expiry_time : datetime)
  : M Subscriber :=
  let path := "/subscribers/" ++ app_user_id ++ "/subscriptions/"
                ++ product_identifier ++ "/defer" in
  let payload := defer_google_subscription_payload expiry_time in
  data <- make_request self "POST" path (Some payload) None (Some "secret")
            default_timeout ;;
  lift (generate_subscriber_response data).

Definition refund_google_subscription (self : Client)
  (app_user_id product_identifier : string) : M Subscriber :=
  let path := "/subscribers/" ++ app_user_id ++ "/subscriptions/"
                ++ product_identifier ++ "/refund" in
  data <- make_request self "POST" path None None (Some "secret")
            default_timeout ;;
  lift (generate_subscriber_response data).

Definition add_user_attribution (self : Client) (app_user_id : string)
  (network : Enums.AttributionSource) (rc_idfa rc_gps_adid : option string)
  : M unit :=
  let path := "subscribers/" ++ app_user_id ++ "/attribution" in
  _ <- make_request self "POST" path None None (Some "public")
         default_timeout ;;
  ret tt.

(** The callable attributes of a [Client] that take a response body, by
    name.  [self.name(data)] looks [name] up here and raises
    [AttributeError] when the class has no such attribute. *)
Inductive body_method : Type :=
| ToSubscriber (f : Py.value -> result Subscriber)
| ToOfferings (f : Py.value -> result Offerings).

Definition body_methods : list (string * body_method) :=
  [("generate_subscriber_response", ToSubscriber generate_subscriber_response);
   ("generate_offerings_response", ToOfferings generate_offerings_response)].

Definition call_offerings_method (name : string) (data : Py.value)
  : result Offerings :=
  match Py.assoc name body_methods with
  | Some (ToOfferings f) => f data
  | Some (ToSubscriber _) => Raise TypeError
  | None => Raise AttributeError
  end.

Definition get_offerings (self : Client) (app_user_id : string)
  (platform : Enums.Platform) : M Offerings :=
  let path := "subscribers/" ++ app_user_id ++ "/offerings" in
  data <- make_request self "GET" path None
            (Some (Py.PyEnum (Enums.OfPlatform platform))) (Some "public")
            default_timeout ;;
  lift (call_offerings_method "get_offerings_response" data).

Definition override_current_offering (self : Client)
  (app_user_id offering_uuid : string) : M Subscriber :=
  let path := "/subscribers/" ++ app_user_id ++ "/offerings/" ++ offering_uuid
                ++ "/override" in
  data <- make_request self "POST" path None None (Some "secret")
            default_timeout ;;
  lift (generate_subscriber_response data).

Definition delete_current_offering_override (self : Client)
  (app_user_id : string) : M Subscriber :=
  let path := "/subscribers/" ++ app_user_id ++ "/offerings/override" in
  data <- make_request self "DELETE" path None None (Some "secret")
            default_timeout ;;
  lift (generate_subscriber_response data).

(** ** The public operations as one type

    A call of a public method with its arguments; [perform] runs it and
    forgets the returned value, and [payload_of] is the payload the method
    hands to [make_request]. *)
Inductive operation : Type :=
| GetSubscriberInfo (app_user_id : string)
| IsUserSubscribed (app_user_id : string)
| UpdateSubscriberAttrs (app_user_id : string)
    (attrs : list (string * SubscriberAttribute))
| DeleteSubscriber (app_user_id : string)
| CreatePurchase (app_user_id : string) (platform : Enums.Platform)
    (fetch_token : string) (product_id : option string) (price : option float)
    (currency : option string) (payment_mode : option Enums.PaymentMode)
    (introductory_price : option float) (is_restore : bool)
    (presented_offering_identifier : option string)
    (attributes : option (list (string * SubscriberAttribute)))
| GrantPromotionalEntitlement (app_user_id entitlement_identifier : string)
    (duration : Enums.PromotionDuration) (start_time : datetime)
| RevokePromotinalEntitlements (app_user_id entitlement_identifier : string)
| RevokeGoogleSubscription (app_user_id product_identifier : string)
| DeferGoogleSubscription (app_user_id product_identifier : string)
    (expiry_time : datetime)
| RefundGoogleSubscription (app_user_id product_identifier : string)
| AddUserAttribution (app_user_id : string)
    (network : Enums.AttributionSource) (rc_idfa rc_gps_adid : option string)
| GetOfferings (app_user_id : string) (platform : Enums.Platform)
| OverrideCurrentOffering (app_user_id offering_uuid : string)
| DeleteCurrentOfferingOverride (app_user_id : string).

Definition forget {A} (m : M A) : M unit := _ <- m ;; ret tt.

Definition perform (self : Client) (op : operation) : M unit :=
  match op with
  | GetSubscriberInfo u => forget (get_subscriber_info self u)
  | IsUserSubscribed u => forget (is_user_subscribed self u)
  | UpdateSubscriberAttrs u a => update_subscriber_attrs self u a
  | DeleteSubscriber u => forget (delete_subscriber self u)
  | CreatePurchase u pl ft pid pr cu pm ip ir poi at_ =>
      forget (create_purchase self u pl ft pid pr cu pm ip ir poi at_)
  | GrantPromotionalEntitlement u e d st =>
      forget (grant_promotional_entitlement self u e d st)
  | RevokePromotinalEntitlements u e =>
      forget (revoke_promotinal_entitlements self u e)
  | RevokeGoogleSubscription u p => forget (revoke_google_subscription self u p)
  | DeferGoogleSubscription u p t =>
      forget (defer_google_subscription self u p t)
  | RefundGoogleSubscription u p => forget (refund_google_subscription self u p)
  | AddUserAttribution u n a b => add_user_attribution self u n a b
  | GetOfferings u pl => forget (get_offerings self u pl)
  | OverrideCurrentOffering u o => forget (override_current_offering self u o)
  | DeleteCurrentOfferingOverride u =>
      forget (delete_current_offering_override self u)
  end.

(** The [key=] argument of the method's call of [make_request]. *)
Definition key_of (self : Client) (op : operation) : string :=
  match op with
  | GetSubscriberInfo _ | IsUserSubscribed _ =>
      if truthy_key (secret_key self) then "secret" else "public"
  | UpdateSubscriberAttrs _ _ | CreatePurchase _ _ _ _ _ _ _ _ _ _ _
  | AddUserAttribution _ _ _ _ | GetOfferings _ _ => "public"
  | DeleteSubscriber _ | GrantPromotionalEntitlement _ _ _ _
  | RevokePromotinalEntitlements _ _ | RevokeGoogleSubscription _ _
  | DeferGoogleSubscription _ _ _ | RefundGoogleSubscription _ _
  | OverrideCurrentOffering _ _ | DeleteCurrentOfferingOverride _ => "secret"
  end.

Definition payload_of (op : operation) : option Py.value :=
  match op with
  | UpdateSubscriberAttrs _ a => Some (Py.PyDict [("attributes", attrs_object a)])
  | CreatePurchase u _ ft pid pr cu pm ip ir poi at_ =>
      Some (create_purchase_payload u ft pid pr cu pm ip ir poi at_)
  | GrantPromotionalEntitlement _ _ d st =>
      Some (grant_promotional_entitlement_payload d st)
  | DeferGoogleSubscription _ _ t => Some (defer_google_subscription_payload t)
  | _ => None
  end.

(** The [method], [path] and [platform=] arguments of the method's call of
    [make_request]. *)
Definition method_of (op : operation) : string :=
  match op with
  | GetSubscriberInfo _ | IsUserSubscribed _ | GetOfferings _ _ => "GET"
  | DeleteSubscriber _ | DeleteCurrentOfferingOverride _ => "DELETE"
  | _ => "POST"
  end.

Definition path_of (op : operation) : string :=
  match op with
  | GetSubscriberInfo u | IsUserSubscribed u | DeleteSubscriber u =>
      "/subscribers/" ++ u
  | UpdateSubscriberAttrs u _ => "/subscribers/" ++ u ++ "/attributes"
  | CreatePurchase _ _ _ _ _ _ _ _ _ _ _ => "/receipts"
  | GrantPromotionalEntitlement u e _ _ =>
      grant_promotional_entitlement_path u e
  | RevokePromotinalEntitlements u e =>
      triple_quote_margin ++ "/subscribers/" ++ u ++ "/entitlements/" ++ e
        ++ "/revoke_promotionals" ++ triple_quote_margin
  | RevokeGoogleSubscription u p =>
      "/subscribers/" ++ u ++ "/subscriptions/" ++ p ++ "/revoke"
  | DeferGoogleSubscription u p _ =>
      "/subscribers/" ++ u ++ "/subscriptions/" ++ p ++ "/defer"
  | RefundGoogleSubscription u p =>
      "/subscribers/" ++ u ++ "/subscriptions/" ++ p ++ "/refund"
  | AddUserAttribution u _ _ _ => "subscribers/" ++ u ++ "/attribution"
  | GetOfferings u _ => "subscribers/" ++ u ++ "/offerings"
  | OverrideCurrentOffering u o =>
      "/subscribers/" ++ u ++ "/offerings/" ++ o ++ "/override"
  | DeleteCurrentOfferingOverride u =>
      "/subscribers/" ++ u ++ "/offerings/override"
  end.

Definition platform_of (op : operation) : option Py.value :=
  match op with
  | CreatePurchase _ pl _ _ _ _ _ _ _ _ _ | GetOfferings _ pl =>
      Some (Py.PyEnum (Enums.OfPlatform pl))
  | _ => None
  end.

(** The operations whose payload holds an enumeration member: the duration
    of [grant_promotional_entitlement], and the payment mode of
    [create_purchase] when one is given. *)
Definition payload_has_enum (op : operation) : bool :=
  match op with
  | GrantPromotionalEntitlement _ _ _ _ => true
  | CreatePurchase _ _ _ _ _ _ (Some _) _ _ _ _ => true
  | _ => false
  end.

End WithRuntime.

End Client.

(* ================================================================== *)
(** * Test doubles and fixtures *)

Module Fixtures.

Local Open Scope Z_scope.

(** A stand-in for the [datetime] class on a machine whose local time is
    UTC: a naive date and time is represented by its POSIX second. *)

Definition digit (c : ascii) : option Z :=
  let n := Z.of_N (N_of_ascii c) in
  if (48 <=? n) && (n <=? 57) then Some (n - 48) else None.

Fixpoint number (acc : Z) (cs : list ascii) : option Z :=
  match cs with
  | [] => Some acc
  | c :: r =>
      match digit c with
      | Some d => number (10 * acc + d) r
      | None => None
      end
  end.

(** Days from 1970-01-01 to a date of the proleptic Gregorian calendar. *)
Definition days_from_civil (y m d : Z) : Z :=
  let y := if m <=? 2 then y - 1 else y in
  let era := y / 400 in
  let yoe := y - era * 400 in
  let doy := (153 * (if 2 <? m then m - 3 else m + 9) + 2) / 5 + d - 1 in
  let doe := yoe * 365 + yoe / 4 - yoe / 100 + doy in
  era * 146097 + doe - 719468.

(** [strptime] for the one format the client uses, on fixed-width fields. *)
Definition strptime_utc (s fmt : string) : result Z :=
  if String.eqb fmt "%Y-%m-%dT%H:%M:%SZ" then
    match list_ascii_of_string s with
    | [y1; y2; y3; y4; "-"; m1; m2; "-"; d1; d2; "T";
       h1; h2; ":"; n1; n2; ":"; s1; s2; "Z"]%char =>
        match number 0 [y1; y2; y3; y4], number 0 [m1; m2], number 0 [d1; d2],
              number 0 [h1; h2], number 0 [n1; n2], number 0 [s1; s2] with
        | Some y, Some m, Some d, Some h, Some n, Some sec =>
            Ok (days_from_civil y m d * 86400 + h * 3600 + n * 60 + sec)
        | _, _, _, _, _, _ => Raise ValueError
        end
    | _ => Raise ValueError
    end
  else Raise ValueError.

Definition timestamp_utc (t : Z) : float :=
  if t <? 0 then (- PrimFloat.of_uint63 (Uint63.of_Z (- t)))%float
  else PrimFloat.of_uint63 (Uint63.of_Z t).

(** The run-time double: the libraries above and a scripted remote end. *)
Definition double (remote : Client.Request -> Client.outcome) : Client.Runtime :=
  {| Client.datetime := Z;
     Client.strptime := strptime_utc;
     Client.datetime_ge := Z.geb;
     Client.timestamp := timestamp_utc;
     Client.session_request := remote |}.

Definition answers (status : Z) (body : option Py.json)
  : Client.Request -> Client.outcome :=
  fun _ => Client.Responds {| Client.status_code := status; Client.json := body |}.

Definition fails (e : Client.transport_error)
  : Client.Request -> Client.outcome :=
  fun _ => Client.Fails e.

(** 2021-01-01T00:00:00. *)
Definition new_year_2021 (remote : Client.Request -> Client.outcome)
  : @Client.datetime (double remote) := 1609459200.

(** No request made yet, on 2021-01-01T00:00:00. *)
Definition fresh (remote : Client.Request -> Client.outcome)
  : @Client.World (double remote) :=
  @Client.Build_World (double remote) [] (new_year_2021 remote).

Definition public_only : Client.Client :=
  {| Client.public_key := Some "pk"; Client.secret_key := None |}.

Definition secret_only : Client.Client :=
  {| Client.public_key := None; Client.secret_key := Some "sk" |}.

(** The subscriber [u1]: one entitlement, one subscription that runs until
    2099, and one subscriber attribute. *)
Definition subscription_json : Py.json :=
  Py.JObj [("expires_date", Py.JStr "2099-01-01T00:00:00Z");
           ("purchase_date", Py.JStr "2020-12-01T00:00:00Z");
           ("original_purchase_date", Py.JStr "2020-12-01T00:00:00Z");
           ("ownership_type", Py.JStr "PURCHASED");
           ("period_type", Py.JStr "normal");
           ("store", Py.JStr "app_store");
           ("is_sandbox", Py.JBool false);
           ("unsubscribe_detected_at", Py.JNull);
           ("billing_issues_detected_at", Py.JNull)].

Definition subscriber_with (subscriptions : Py.json) : Py.json :=
  Py.JObj [("original_app_user_id", Py.JStr "u1");
           ("original_application_version", Py.JNull);
           ("first_seen", Py.JStr "2020-12-01T00:00:00Z");
           ("last_seen", Py.JStr "2020-12-31T00:00:00Z");
           ("management_url", Py.JNull);
           ("original_purchase_date", Py.JNull);
           ("other_purchases", Py.JObj []);
           ("entitlements",
             Py.JObj [("pro",
               Py.JObj [("expires_date", Py.JStr "2099-01-01T00:00:00Z");
                        ("purchase_date", Py.JStr "2020-12-01T00:00:00Z");
                        ("product_identifier", Py.JStr "monthly")])]);
           ("subscriptions", subscriptions);
           ("non_subscriptions", Py.JObj []);
           ("subscriber_attributes",
             Py.JObj [("$email",
               Py.JObj [("value", Py.JStr "a@b.c");
                        ("updated_at_ms", Py.JInt 1609459200000)])])].

Definition subscriber_json : Py.json :=
  subscriber_with (Py.JObj [("monthly", subscription_json)]).

(** A remote end that answers every request with status 200 and the
    subscriber above as the whole body. *)
Definition serves_subscriber : Client.Request -> Client.outcome :=
  answers 200 (Some subscriber_json).

(** The body of [GET /subscribers/u1] around a subscriber object. *)
Definition body_of (subscriber : Py.json) : Py.json :=
  Py.JObj [("request_date", Py.JStr "2021-01-01T00:00:00Z");
           ("subscriber", subscriber)].

Definition subscriber_body : Py.json := body_of subscriber_json.

(** The body of [GET /subscribers/u1/offerings]: two offerings with
    different packages. *)
Definition package_json (identifier product : string) : Py.json :=
  Py.JObj [("identifier", Py.JStr identifier);
           ("platform_product_identifier", Py.JStr product)].

Definition offerings_body : Py.json :=
  Py.JObj [("current_offering_id", Py.JStr "default");
           ("offerings",
             Py.JArr
               [Py.JObj [("description", Py.JStr "Default offering");
                         ("identifier", Py.JStr "default");
                         ("packages",
                           Py.JArr [package_json "$rc_monthly" "monthly_1"])];
                Py.JObj [("description", Py.JStr "Sale offering");
                         ("identifier", Py.JStr "sale");
                         ("packages",
                           Py.JArr [package_json "$rc_annual" "annual_sale";
                                    package_json "$rc_weekly" "weekly_sale"])]])].

End Fixtures.

(* ================================================================== *)
(** * Statements taken from the specification *)

Module Spec.

(** The identifier of a subscriber keeps to one path segment, escaped, and
    that segment decodes to the identifier: the encoded path of
    [/subscribers/{uid}] has the segments [""], ["subscribers"] and one
    more, whose decoding is [uid]. *)
Definition id_segment_round_trips (uid : string) : Prop :=
  exists seg,
    Utils.segments (Utils.encode ("/subscribers/" ++ uid))
    = [""; "subscribers"; seg]
    /\ Utils.percent_decode seg = uid.

End Spec.

(* ================================================================== *)
(** * Properties of the enumerations *)

Section EnumLookup.

Import Enums.

Variable E : Type.
Variable cls : StrEnum E.

Lemma find_value_absent (w : string) (l : list E) :
  ~ In w (map (value cls) l) ->
  find (fun m => String.eqb (value cls m) w) l = None.
Proof.
  induction l as [|a l IH]; simpl; intros Hnot.
  - reflexivity.
  - destruct (String.eqb_spec (value cls a) w) as [Heq|Hne].
    + exfalso. apply Hnot. now left.
    + apply IH. intros Hin. apply Hnot. now right.
Qed.

Lemma find_value_present (m : E) (l : list E) :
  NoDup (map (value cls) l) -> In m l ->
  find (fun m' => String.eqb (value cls m') (value cls m)) l = Some m.
Proof.
  induction l as [|a l IH]; simpl; intros Hnd Hin.
  - contradiction.
  - inversion Hnd as [|x xs Hfresh Hnd' Heq]; subst.
    destruct Hin as [->|Hin].
    + now rewrite String.eqb_refl.
    + destruct (String.eqb_spec (value cls a) (value cls m)) as [Heq|Hne].
      * exfalso. apply Hfresh. rewrite Heq. now apply in_map.
      * now apply IH.
Qed.

Lemma lookup_by_value_of_value (m : E) :
  NoDup (wire_values cls) -> In m (members cls) ->
  lookup_by_value cls (value cls m) = Ok m.
Proof.
  intros Hnd Hin. unfold lookup_by_value.
  now rewrite (find_value_present m (members cls) Hnd Hin).
Qed.

Lemma lookup_by_value_unknown (w : string) :
  ~ In w (wire_values cls) -> lookup_by_value cls w = Raise ValueError.
Proof.
  intros Hnot. unfold lookup_by_value.
  now rewrite (find_value_absent w (members cls) Hnot).
Qed.

End EnumLookup.

Lemma Platform_wire_values_distinct :
  NoDup (Enums.wire_values Enums.Platform_cls).
Proof.
  repeat constructor; simpl; intuition discriminate.
Qed.

Lemma PromotionDuration_wire_values_distinct :
  NoDup (Enums.wire_values Enums.PromotionDuration_cls).
Proof.
  repeat constructor; simpl; intuition discriminate.
Qed.

Lemma Store_wire_values_distinct :
  NoDup (Enums.wire_values Enums.Store_cls).
Proof.
  repeat constructor; simpl; intuition discriminate.
Qed.

(** C7.  For each of [Platform], [PromotionDuration] and [Store], looking a
    member's wire string up gives the member back, and looking up a string
    that is not one of the class's wire strings raises [ValueError]; the
    match is exact. *)
Theorem enum_wire_round_trip :
  (forall m, Enums.lookup_by_value Enums.Platform_cls
               (Enums.value Enums.Platform_cls m) = Ok m) /\
  (forall m, Enums.lookup_by_value Enums.PromotionDuration_cls
               (Enums.value Enums.PromotionDuration_cls m) = Ok m) /\
  (forall m, Enums.lookup_by_value Enums.Store_cls
               (Enums.value Enums.Store_cls m) = Ok m) /\
  (forall w, ~ In w (Enums.wire_values Enums.Platform_cls) ->
             Enums.lookup_by_value Enums.Platform_cls w = Raise ValueError) /\
  (forall w, ~ In w (Enums.wire_values Enums.PromotionDuration_cls) ->
             Enums.lookup_by_value Enums.PromotionDuration_cls w
             = Raise ValueError) /\
  (forall w, ~ In w (Enums.wire_values Enums.Store_cls) ->
             Enums.lookup_by_value Enums.Store_cls w = Raise ValueError).
Proof.
  repeat split.
  - intros m. apply lookup_by_value_of_value.
    + exact Platform_wire_values_distinct.
    + destruct m; simpl; tauto.
  - intros m. apply lookup_by_value_of_value.
    + exact PromotionDuration_wire_values_distinct.
    + destruct m; simpl; tauto.
  - intros m. apply lookup_by_value_of_value.
    + exact Store_wire_values_distinct.
    + destruct m; simpl; tauto.
  - intros w. apply lookup_by_value_unknown.
  - intros w. apply lookup_by_value_unknown.
  - intros w. apply lookup_by_value_unknown.
Qed.

Lemma enum_wire_round_trip_witness :
  ~ In "IOS" (Enums.wire_values Enums.Platform_cls) /\
  Enums.lookup_by_value Enums.Platform_cls "IOS" = Raise ValueError /\
  ~ In "Daily " (Enums.wire_values Enums.PromotionDuration_cls) /\
  Enums.lookup_by_value Enums.PromotionDuration_cls "Daily " = Raise ValueError /\
  ~ In "appstore" (Enums.wire_values Enums.Store_cls) /\
  Enums.lookup_by_value Enums.Store_cls "appstore" = Raise ValueError /\
  Enums.lookup_by_value Enums.Store_cls
    (Enums.value Enums.Store_cls Enums.STRIPE) = Ok Enums.STRIPE.
Proof.
  destruct enum_wire_round_trip as (_ & _ & Hs & Hp & Hd & Hst).
  assert (H1 : ~ In "IOS" (Enums.wire_values Enums.Platform_cls))
    by (simpl; intuition discriminate).
  assert (H2 : ~ In "Daily " (Enums.wire_values Enums.PromotionDuration_cls))
    by (simpl; intuition discriminate).
  assert (H3 : ~ In "appstore" (Enums.wire_values Enums.Store_cls))
    by (simpl; intuition discriminate).
  exact (conj H1 (conj (Hp _ H1) (conj H2 (conj (Hd _ H2)
           (conj H3 (conj (Hst _ H3) (Hs Enums.STRIPE))))))).
Defined.

(* ================================================================== *)
(** * Properties of the path encoding *)

Section Quote.

Import Utils.

Lemma quote_byte_decode (c : ascii) (rest : string) :
  percent_decode (quote_byte "/" c ++ rest) = String c (percent_decode rest).
Proof.
  destruct c as [[] [] [] [] [] [] [] []]; reflexivity.
Qed.

Lemma percent_decode_quote (s : string) : percent_decode (quote s) = s.
Proof.
  unfold quote. induction s as [|c s IH]; simpl.
  - reflexivity.
  - now rewrite quote_byte_decode, IH.
Qed.

Lemma append_assoc (a b c : string) : (a ++ b) ++ c = a ++ (b ++ c).
Proof.
  induction a as [|x a IH]; simpl; [reflexivity | now rewrite IH].
Qed.

Lemma append_nil_r (a : string) : a ++ "" = a.
Proof.
  induction a as [|x a IH]; simpl; [reflexivity | now rewrite IH].
Qed.

Lemma quote_app (a b : string) : quote (a ++ b) = quote a ++ quote b.
Proof.
  unfold quote. induction a as [|x a IH]; simpl.
  - reflexivity.
  - now rewrite IH, append_assoc.
Qed.

Lemma in_append (c : ascii) (a b : string) :
  In c (list_ascii_of_string (a ++ b)) <->
  In c (list_ascii_of_string a) \/ In c (list_ascii_of_string b).
Proof.
  induction a as [|x a IH]; simpl; tauto.
Qed.

(** The alphabet of the output: unreserved characters, the separator, and
    the escape sign. *)
Lemma quote_byte_alphabet (c d : ascii) :
  In d (list_ascii_of_string (quote_byte "/" c)) ->
  d = "%"%char \/ is_safe "/" d = true.
Proof.
  destruct c as [[] [] [] [] [] [] [] []]; simpl;
    intuition (subst; auto).
Qed.

Lemma quote_alphabet (s : string) (d : ascii) :
  In d (list_ascii_of_string (quote s)) ->
  d = "%"%char \/ is_safe "/" d = true.
Proof.
  unfold quote. induction s as [|c s IH]; simpl.
  - contradiction.
  - rewrite in_append. intros [H|H]; [now apply (quote_byte_alphabet c) | auto].
Qed.

(** The separator comes out of the separator only. *)
Lemma quote_byte_separator (c : ascii) :
  In "/"%char (list_ascii_of_string (quote_byte "/" c)) -> c = "/"%char.
Proof.
  destruct c as [[] [] [] [] [] [] [] []]; simpl;
    intuition discriminate.
Qed.

Lemma quote_separator (s : string) :
  In "/"%char (list_ascii_of_string (quote s)) ->
  In "/"%char (list_ascii_of_string s).
Proof.
  unfold quote. induction s as [|c s IH]; simpl.
  - contradiction.
  - rewrite in_append. intros [H|H].
    + left. now apply quote_byte_separator.
    + right. now apply IH.
Qed.

Lemma segments_from_no_separator (s cur : string) :
  ~ In "/"%char (list_ascii_of_string s) ->
  segments_from cur s = [cur ++ s].
Proof.
  revert cur. induction s as [|c s IH]; simpl; intros cur Hno.
  - now rewrite append_nil_r.
  - destruct (Ascii.eqb_spec c "/") as [->|Hne].
    + exfalso. apply Hno. now left.
    + rewrite IH by tauto. now rewrite append_assoc.
Qed.

Lemma subscriber_path_segments (uid : string) :
  ~ In "/"%char (list_ascii_of_string uid) ->
  segments (encode ("/subscribers/" ++ uid)) = [""; "subscribers"; encode uid].
Proof.
  intros Hno. unfold encode. rewrite quote_app.
  change (quote "/subscribers/") with "/subscribers/".
  unfold segments. cbn [append segments_from Ascii.eqb Bool.eqb].
  rewrite segments_from_no_separator.
  - reflexivity.
  - intros Hin. apply Hno. now apply quote_separator.
Qed.

End Quote.

(* ================================================================== *)
(** * Properties of [json.dumps] and of the values read from JSON *)

(** The default encoder raises nothing but [TypeError]. *)
Lemma dumps_raises_TypeError :
  forall (v : Py.value) (e : exn), Py.dumps v = Raise e -> e = TypeError.
Proof.
  fix IH 1. intros v e. destruct v as [| b | z | f | s | l | kvs | cls fields | m];
    simpl; try discriminate.
  - (* list *)
    assert (Hl : forall e',
      (fix go (l : list Py.value) : result (list Py.json) :=
         match l with
         | [] => Ok []
         | x :: r => (j <- Py.dumps x ;; js <- go r ;; Ok (j :: js))%res
         end) l = Raise e' -> e' = TypeError).
    { induction l as [|x r IHl]; intros e'; [discriminate|].
      destruct (Py.dumps x) as [j|ex] eqn:Hx; simpl.
      - destruct ((fix go (l : list Py.value) : result (list Py.json) :=
                     match l with
                     | [] => Ok []
                     | x :: r => (j <- Py.dumps x ;; js <- go r ;; Ok (j :: js))%res
                     end) r) as [js|er] eqn:Hr; simpl; [discriminate|].
        intros [= <-]. now apply IHl.
      - intros [= <-]. now apply (IH x). }
    match goal with |- context [rbind ?g _] => destruct g as [js|el] eqn:Hg end;
      simpl; [discriminate|].
    intros [= <-]. now apply Hl.
  - (* dict *)
    assert (Hl : forall e',
      (fix go (l : list (string * Py.value)) : result (list (string * Py.json)) :=
         match l with
         | [] => Ok []
         | (k, x) :: r => (j <- Py.dumps x ;; js <- go r ;; Ok ((k, j) :: js))%res
         end) kvs = Raise e' -> e' = TypeError).
    { induction kvs as [|[k x] r IHl]; intros e'; [discriminate|].
      destruct (Py.dumps x) as [j|ex] eqn:Hx; simpl.
      - destruct ((fix go (l : list (string * Py.value))
                     : result (list (string * Py.json)) :=
                     match l with
                     | [] => Ok []
                     | (k, x) :: r =>
                         (j <- Py.dumps x ;; js <- go r ;; Ok ((k, j) :: js))%res
                     end) r) as [js|er] eqn:Hr; simpl; [discriminate|].
        intros [= <-]. now apply IHl.
      - intros [= <-]. now apply (IH x). }
    match goal with |- context [rbind ?g _] => destruct g as [js|el] eqn:Hg end;
      simpl; [discriminate|].
    intros [= <-]. now apply Hl.
  - (* named tuple *)
    assert (Hl : forall e',
      (fix go (l : list (string * Py.value)) : result (list Py.json) :=
         match l with
         | [] => Ok []
         | (_, x) :: r => (j <- Py.dumps x ;; js <- go r ;; Ok (j :: js))%res
         end) fields = Raise e' -> e' = TypeError).
    { induction fields as [|[k x] r IHl]; intros e'; [discriminate|].
      destruct (Py.dumps x) as [j|ex] eqn:Hx; simpl.
      - destruct ((fix go (l : list (string * Py.value)) : result (list Py.json) :=
                     match l with
                     | [] => Ok []
                     | (_, x) :: r =>
                         (j <- Py.dumps x ;; js <- go r ;; Ok (j :: js))%res
                     end) r) as [js|er] eqn:Hr; simpl; [discriminate|].
        intros [= <-]. now apply IHl.
      - intros [= <-]. now apply (IH x). }
    match goal with |- context [rbind ?g _] => destruct g as [js|el] eqn:Hg end;
      simpl; [discriminate|].
    intros [= <-]. now apply Hl.
  - now intros [= <-].
Qed.

Lemma assoc_of_json (k : string) (kvs : list (string * Py.json)) :
  Py.assoc k (map (fun kv => (fst kv, Py.of_json (snd kv))) kvs)
  = option_map Py.of_json (Py.assoc k kvs).
Proof.
  induction kvs as [|[k' j] r IH]; simpl.
  - reflexivity.
  - destruct (String.eqb k' k); [reflexivity | exact IH].
Qed.

(** Subscripting a value read from JSON gives a value read from JSON. *)
Lemma getitem_of_json (j : Py.json) (k : string) (v : Py.value) :
  Py.getitem (Py.of_json j) k = Ok v -> exists j', v = Py.of_json j'.
Proof.
  destruct j; simpl; try discriminate.
  rewrite assoc_of_json. destruct (Py.assoc k kvs) as [j'|]; simpl.
  - intros [= <-]. now exists j'.
  - discriminate.
Qed.

(** No item of a value read from JSON has data attributes: the items are
    keys or characters, so strings, or values read from JSON themselves. *)
Lemma getattr_item_of_json (j : Py.json) (items : list Py.value)
  (x : Py.value) (name : string) :
  Py.iter (Py.of_json j) = Ok items -> In x items ->
  Py.getattr x name = Raise AttributeError.
Proof.
  destruct j; simpl; try discriminate; intros [= <-] Hin.
  - apply in_map_iff in Hin as [c [<- _]]. reflexivity.
  - apply in_map_iff in Hin as [j' [<- _]]. now destruct j'.
  - apply in_map_iff in Hin as [kv [<- _]]. reflexivity.
Qed.

(* ================================================================== *)
(** * Properties of [make_request] *)

Section MakeRequest.

Import Client.

Context {RT : Runtime}.

Lemma dump_payload_raises_TypeError (payload : option Py.value) (e : exn) :
  dump_payload payload = Raise e -> e = TypeError.
Proof.
  destruct payload as [p|]; simpl; [|discriminate].
  destruct (Py.dumps p) as [j|e'] eqn:Hd; [discriminate|].
  intros [= <-]. now apply (dumps_raises_TypeError p).
Qed.

(** One run of [make_request], step by step: a payload that cannot be
    serialised and a missing credential end the call before the transport
    is used; otherwise exactly one request is sent. *)
Lemma make_request_run (self : Client) (method path : string)
  (payload platform : option Py.value) (key : option string) (timeout : Z)
  (w : World) :
  make_request self method path payload platform key timeout w =
  match dump_payload payload with
  | Raise e => (Raise e, w)
  | Ok data =>
      match request_headers self platform key with
      | Raise e => (Raise e, w)
      | Ok headers =>
          let q := {| method := method;
                      url := base_api_url ++ Utils.encode path;
                      headers := headers; data := data; timeout := timeout |} in
          (receive (session_request q),
           {| calls := calls w ++ [q]; now := now w |})
      end
  end.
Proof.
  unfold make_request, bind, lift, send.
  destruct (dump_payload payload) as [d|e]; [|reflexivity].
  destruct (request_headers self platform key) as [h|e]; [|reflexivity].
  simpl. destruct (receive _); reflexivity.
Qed.

Lemma request_headers_missing_key (self : Client) (platform : option Py.value)
  (key : string) :
  key_token self key = None ->
  request_headers self platform (Some key)
  = Raise (Exception_ ("This functionality requires " ++ key ++ " key to be set")).
Proof.
  intros H. unfold request_headers. now rewrite H.
Qed.

Lemma make_request_missing_key (self : Client) (method path : string)
  (payload platform : option Py.value) (key : string) (timeout : Z) (w : World) :
  key_token self key = None ->
  make_request self method path payload platform (Some key) timeout w =
  (match dump_payload payload with
   | Raise e => Raise e
   | Ok _ =>
       Raise (Exception_ ("This functionality requires " ++ key ++ " key to be set"))
   end, w).
Proof.
  intros H. rewrite make_request_run, (request_headers_missing_key _ _ _ H).
  now destruct (dump_payload payload).
Qed.

Lemma bind_raise {A B} (m : M A) (k : A -> M B) (w w' : World) (e : exn) :
  m w = (Raise e, w') -> bind m k w = (Raise e, w').
Proof.
  intros H. unfold bind. now rewrite H.
Qed.

Lemma forget_raise {A} (m : M A) (w w' : World) (e : exn) :
  m w = (Raise e, w') -> forget m w = (Raise e, w').
Proof.
  intros H. unfold forget. now apply bind_raise.
Qed.

End MakeRequest.

(* ================================================================== *)
(** * The request path (C2) *)

(** An identifier with a separator in it spreads over two segments of the
    encoded path, none of which decodes to the identifier: the request for
    the subscriber [a/b] goes to [/subscribers/a/b], and deleting the
    subscriber [u/offerings/override] sends the very request that deletes
    the offering override of the subscriber [u]. *)
Lemma id_with_separator_not_escaped :
  ~ Spec.id_segment_round_trips "a/b" /\
  Utils.encode ("/subscribers/" ++ "a/b") = "/subscribers/a/b" /\
  Client.calls
    (snd (@Client.delete_subscriber
            (Fixtures.double (Fixtures.fails Client.Timeout))
            Fixtures.secret_only "u/offerings/override" (Fixtures.fresh _)))
  = Client.calls
      (snd (@Client.delete_current_offering_override
              (Fixtures.double (Fixtures.fails Client.Timeout))
              Fixtures.secret_only "u" (Fixtures.fresh _))).
Proof.
  split; [|repeat split; reflexivity].
  intros [seg [H _]]. vm_compute in H. discriminate H.
Qed.

(** C2, as the code has it.  [make_request] sends its request to the base
    URL followed by [quote(path)].  The encoding writes every byte of the
    path that is not an ASCII letter, a digit, one of [_.-~] or the separator
    [/] as a [%XX] escape, so its output consists of those characters and
    [%] only; it works byte by byte, so the image of an interpolated
    identifier is the encoding of the identifier; decoding the encoded path
    gives the path back, decoding the image of an identifier gives the
    identifier back; and an identifier without [/] occupies one segment of
    the encoded path, which decodes to it. *)
Theorem encoded_path_round_trip {RT : Client.Runtime}
  (self : Client.Client) (method path : string)
  (payload platform : option Py.value) (key : option string) (timeout : Z)
  (w : Client.World) :
  (forall q,
      In q (Client.calls
              (snd (Client.make_request self method path payload platform
                      key timeout w))) ->
      In q (Client.calls w)
      \/ Client.url q = Client.base_api_url ++ Utils.quote path) /\
  (forall d, In d (list_ascii_of_string (Utils.encode path)) ->
             d = "%"%char \/ Utils.is_safe "/" d = true) /\
  Utils.percent_decode (Utils.encode path) = path /\
  (forall a uid b,
      Utils.encode (a ++ uid ++ b)
      = Utils.encode a ++ Utils.encode uid ++ Utils.encode b
      /\ Utils.percent_decode (Utils.encode uid) = uid) /\
  (forall uid, ~ In "/"%char (list_ascii_of_string uid) ->
               Spec.id_segment_round_trips uid).
Proof.
  repeat split.
  - intros q. rewrite make_request_run.
    destruct (Client.dump_payload payload) as [d|e]; [|now left].
    destruct (Client.request_headers self platform key) as [h|e]; [|now left].
    simpl. rewrite in_app_iff. intros [H|[<-|[]]]; [now left | now right].
  - apply quote_alphabet.
  - apply percent_decode_quote.
  - unfold Utils.encode. now rewrite !quote_app.
  - apply percent_decode_quote.
  - intros uid Hno. exists (Utils.encode uid). split.
    + now apply subscriber_path_segments.
    + apply percent_decode_quote.
Qed.

Lemma encoded_path_round_trip_witness :
  ~ In "/"%char (list_ascii_of_string "é b%25") /\
  Spec.id_segment_round_trips "é b%25" /\
  Utils.encode "/subscribers/é b%25" = "/subscribers/%C3%A9%20b%2525" /\
  Utils.percent_decode (Utils.encode "/subscribers/é b%25")
  = "/subscribers/é b%25".
Proof.
  pose proof (@encoded_path_round_trip
                (Fixtures.double (Fixtures.fails Client.Timeout))
                Fixtures.public_only "GET" "/subscribers/é b%25" None None
                (Some "public") 5%Z (Fixtures.fresh _)) as (_ & _ & Hrt & _ & Hseg).
  assert (Hno : ~ In "/"%char (list_ascii_of_string "é b%25"))
    by (simpl; intuition discriminate).
  exact (conj Hno (conj (Hseg _ Hno) (conj eq_refl Hrt))).
Defined.

(* ================================================================== *)
(** * Missing credentials (C3) *)

(** C3.  A client with a public key only has no credential for the secret
    tier.  Deleting a subscriber with it raises the credential exception
    and sends nothing; granting a promotional entitlement with it sends
    nothing either, but raises the [TypeError] of [json.dumps], which has
    run on the payload, and not the credential exception. *)
Theorem grant_without_secret_key_is_type_error :
  Client.key_token Fixtures.public_only "secret" = None /\
  Client.perform Fixtures.public_only
    (@Client.GrantPromotionalEntitlement
       (Fixtures.double Fixtures.serves_subscriber) "u1" "pro" Enums.DAILY
       (Fixtures.new_year_2021 _))
    (Fixtures.fresh _)
  = (Raise TypeError, Fixtures.fresh _) /\
  ~ (exists msg,
       fst (Client.perform Fixtures.public_only
              (@Client.GrantPromotionalEntitlement
                 (Fixtures.double Fixtures.serves_subscriber) "u1" "pro"
                 Enums.DAILY (Fixtures.new_year_2021 _))
              (Fixtures.fresh _))
       = Raise (Exception_ msg)) /\
  Client.perform Fixtures.public_only
    (@Client.DeleteSubscriber (Fixtures.double Fixtures.serves_subscriber) "u1")
    (Fixtures.fresh _)
  = (Raise (Exception_ "This functionality requires secret key to be set"),
     Fixtures.fresh _).
Proof.
  split; [reflexivity|]. split; [reflexivity|]. split; [|reflexivity].
  intros [msg H]. vm_compute in H. discriminate H.
Qed.

Section MissingCredential.

Import Client.

Context {RT : Runtime}.

Ltac unfold_operations :=
  unfold get_subscriber_info, is_user_subscribed, update_subscriber_attrs,
    delete_subscriber, create_purchase, grant_promotional_entitlement,
    revoke_promotinal_entitlements, revoke_google_subscription,
    defer_google_subscription, refund_google_subscription,
    add_user_attribution, get_offerings, override_current_offering,
    delete_current_offering_override;
  cbv zeta.

(** An exception of the first step of a computation is the exception of the
    whole: go down to the call of [make_request]. *)
Ltac to_make_request :=
  match goal with
  | |- forget _ _ = _ => apply forget_raise
  | |- bind _ _ _ = _ => apply bind_raise
  end.

(** An operation whose key tier is not set on the client ends in
    [make_request], before the exchange: with the exception of [json.dumps]
    when the payload cannot be serialised, with the credential exception
    otherwise. *)
Lemma perform_missing_key (self : Client) (op : operation) (w : World) :
  key_token self (key_of self op) = None ->
  perform self op w
  = (match dump_payload (payload_of op) with
     | Ok _ =>
         Raise (Exception_ ("This functionality requires " ++ key_of self op
                              ++ " key to be set"))
     | Raise e => Raise e
     end, w).
Proof.
  intros H.
  destruct (dump_payload (payload_of op)) as [d|e0] eqn:Hd.
  - destruct op; cbn [perform key_of payload_of] in H, Hd |- *;
      unfold_operations; unfold_operations; repeat to_make_request;
      rewrite (make_request_missing_key _ _ _ _ _ _ _ _ H), Hd; reflexivity.
  - destruct op; cbn [perform key_of payload_of] in H, Hd |- *;
      try discriminate Hd;
      unfold_operations; unfold_operations; repeat to_make_request;
      rewrite (make_request_missing_key _ _ _ _ _ _ _ _ H), Hd; reflexivity.
Qed.

End MissingCredential.

(* ================================================================== *)
(** * The error taxonomy of [make_request] (C6) *)

(** Two failures that are not classified: a response whose status is
    outside 2xx but is not a 4xx or a 5xx is not an error for
    [raise_for_status], so its body is returned; and a body that is not a
    JSON document raises the decoder's own exception, because the call of
    [json()] stands after the [try] statement. *)
Lemma remote_failures_not_all_classified :
  fst (@Client.make_request
         (Fixtures.double (Fixtures.answers 304 (Some Fixtures.subscriber_body)))
         Fixtures.public_only "GET" "/subscribers/u1" None None (Some "public")
         5%Z (Fixtures.fresh _))
  = Ok (Py.of_json Fixtures.subscriber_body) /\
  fst (@Client.make_request
         (Fixtures.double (Fixtures.answers 200 None))
         Fixtures.public_only "GET" "/subscribers/u1" None None (Some "public")
         5%Z (Fixtures.fresh _))
  = Raise JSONDecodeError /\
  @Raise Py.value JSONDecodeError <> Raise RevenueCatError.
Proof.
  repeat split. discriminate.
Qed.

Section Taxonomy.

Import Client.

Context {RT : Runtime}.

Lemma request_headers_raises (self : Client) (platform : option Py.value)
  (key : option string) (e : exn) :
  request_headers self platform key = Raise e -> exists msg, e = Exception_ msg.
Proof.
  unfold request_headers. destruct key as [k|]; [|discriminate].
  destruct (key_token self k); [discriminate|].
  intros [= <-]. eauto.
Qed.

Lemma not_snoc_self {A} (l : list A) (x : A) : l <> (l ++ [x])%list.
Proof.
  intros H. apply (f_equal (@List.length A)) in H.
  rewrite List.length_app in H. simpl in H. lia.
Qed.

Lemma snoc_inj {A} (l : list A) (x y : A) : (l ++ [x] = l ++ [y])%list -> x = y.
Proof.
  intros H. apply app_inv_head in H. now injection H.
Qed.

Lemma receive_Unavailable (r : outcome) :
  receive r = Raise Unavailable <-> r = Fails ConnectionError \/ r = Fails Timeout.
Proof.
  destruct r as [resp|[]]; simpl.
  - destruct (raise_for_status resp); [|destruct (json resp)];
      split; try discriminate; intros [H|H]; discriminate H.
  - tauto.
  - tauto.
  - split; [discriminate | intros [H|H]; discriminate H].
Qed.

Lemma raise_for_status_spec (resp : HttpResponse) :
  raise_for_status resp = true <-> (400 <= status_code resp < 600)%Z.
Proof.
  unfold raise_for_status.
  rewrite andb_true_iff, Z.leb_le, Z.ltb_lt. tauto.
Qed.

Lemma receive_RevenueCatError (r : outcome) :
  receive r = Raise RevenueCatError <->
  r = Fails OtherError
  \/ exists resp, r = Responds resp /\ (400 <= status_code resp < 600)%Z.
Proof.
  destruct r as [resp|[]]; simpl.
  - destruct (raise_for_status resp) eqn:Hs.
    + split; [|reflexivity]. intros _. right. exists resp.
      split; [reflexivity | now apply raise_for_status_spec].
    + assert (Hno : ~ (400 <= status_code resp < 600)%Z).
      { intros Hc. apply raise_for_status_spec in Hc. congruence. }
      destruct (json resp); (split; [discriminate|]);
        intros [Hc|[r' [[= <-] Hc]]]; (discriminate Hc || contradiction).
  - split; [discriminate|]. intros [Hc|[r' [Hc _]]]; discriminate Hc.
  - split; [discriminate|]. intros [Hc|[r' [Hc _]]]; discriminate Hc.
  - split; [tauto | reflexivity].
Qed.

Lemma receive_Ok (r : outcome) (v : Py.value) :
  receive r = Ok v ->
  exists resp j,
    r = Responds resp /\ ~ (400 <= status_code resp < 600)%Z
    /\ json resp = Some j /\ v = Py.of_json j.
Proof.
  destruct r as [resp|[]]; simpl; try discriminate.
  destruct (raise_for_status resp) eqn:Hs; [discriminate|].
  destruct (json resp) as [j|] eqn:Hj; [|discriminate].
  intros [= <-]. exists resp, j. repeat split; auto.
  intros Hc. apply raise_for_status_spec in Hc. congruence.
Qed.

(** C6, as the code has it.  [make_request] raises [Unavailable] exactly
    when it has sent its request and the transport raised
    [ConnectionError] or [Timeout]; it raises [RevenueCatError] exactly when
    it has sent its request and the transport raised another exception or
    answered with a 4xx or 5xx status; and a value it returns is the whole
    body of a response whose status is not 4xx or 5xx, as its [json()]
    gives it. *)
Theorem make_request_error_taxonomy (self : Client) (method path : string)
  (payload platform : option Py.value) (key : option string) (timeout : Z)
  (w : World) :
  let run := make_request self method path payload platform key timeout w in
  (fst run = Raise Unavailable <->
   exists q, calls (snd run) = (calls w ++ [q])%list
             /\ (session_request q = Fails ConnectionError
                 \/ session_request q = Fails Timeout)) /\
  (fst run = Raise RevenueCatError <->
   exists q, calls (snd run) = (calls w ++ [q])%list
             /\ (session_request q = Fails OtherError
                 \/ exists resp, session_request q = Responds resp
                                 /\ (400 <= status_code resp < 600)%Z)) /\
  (forall v, fst run = Ok v ->
             exists q resp j,
               calls (snd run) = (calls w ++ [q])%list
               /\ session_request q = Responds resp
               /\ ~ (400 <= status_code resp < 600)%Z
               /\ json resp = Some j /\ v = Py.of_json j).
Proof.
  cbv zeta. rewrite make_request_run.
  destruct (dump_payload payload) as [d|e] eqn:Hd.
  2:{ apply dump_payload_raises_TypeError in Hd as ->. simpl.
      repeat split; try discriminate.
      - intros [q [H _]]. now apply not_snoc_self in H.
      - intros [q [H _]]. now apply not_snoc_self in H. }
  destruct (request_headers self platform key) as [h|e] eqn:Hh.
  2:{ apply request_headers_raises in Hh as [msg ->]. simpl.
      repeat split; try discriminate.
      - intros [q [H _]]. now apply not_snoc_self in H.
      - intros [q [H _]]. now apply not_snoc_self in H. }
  cbv zeta. cbn [fst snd calls].
  set (q := {| method := method; url := base_api_url ++ Utils.encode path;
               headers := h; data := d; timeout := timeout |}).
  repeat split.
  - intros H. exists q. split; [reflexivity | now apply receive_Unavailable].
  - intros [q' [Hq H]]. apply snoc_inj in Hq as <-. now apply receive_Unavailable.
  - intros H. exists q. split; [reflexivity | now apply receive_RevenueCatError].
  - intros [q' [Hq H]]. apply snoc_inj in Hq as <-.
    now apply receive_RevenueCatError.
  - intros v H. apply receive_Ok in H as (resp & j & H1 & H2 & H3 & H4).
    exists q, resp, j. auto.
Qed.

End Taxonomy.

Lemma make_request_error_taxonomy_witness :
  fst (@Client.make_request
         (Fixtures.double (Fixtures.fails Client.Timeout))
         Fixtures.public_only "GET" "/subscribers/u1" None None (Some "public")
         5%Z (Fixtures.fresh _))
  = Raise Unavailable.
Proof.
  apply (@make_request_error_taxonomy
           (Fixtures.double (Fixtures.fails Client.Timeout))
           Fixtures.public_only "GET" "/subscribers/u1" None None
           (Some "public") 5%Z (Fixtures.fresh _)).
  eexists. split; [reflexivity | right; reflexivity].
Defined.

(* ================================================================== *)
(** * Decoding a subscriber (C5) and the subscription check (C1) *)

Section SubscriberDecoding.

Import Client Response.

(** Peel one step off a successful run in the [result] monad. *)
Ltac ok_step H :=
  match type of H with
  | rbind ?c _ = Ok _ =>
      let E := fresh "E" in
      destruct c eqn:E; cbn [rbind] in H; [|discriminate H]
  end.

(** [generate_subscriber_response] copies: each field of the record is the
    value the body has under the field's name, the very object, whether it
    is a nested map or not. *)
Lemma generate_subscriber_response_copies (data : Py.value) (s : Subscriber) :
  generate_subscriber_response data = Ok s ->
  Py.getitem data "entitlements" = Ok (entitlements s)
  /\ Py.getitem data "subscriptions" = Ok (subscriptions s)
  /\ Py.getitem data "non_subscriptions" = Ok (non_subscriptions s)
  /\ (forall v, Py.getitem data "subscriber_attributes" = Ok v ->
                subscriber_attributes s = v).
Proof.
  unfold generate_subscriber_response. intros H.
  destruct data; try discriminate H. cbn [Py.kwargs rbind] in H.
  unfold Subscriber_new in H. repeat ok_step H.
  injection H as <-. cbn [entitlements subscriptions non_subscriptions
                            subscriber_attributes Py.getitem].
  unfold Py.required in *. unfold Py.optional.
  repeat match goal with
         | E : match Py.assoc ?k ?l with _ => _ end = Ok _ |- _ =>
             destruct (Py.assoc k l) eqn:?; [injection E as <- | discriminate E]
         end.
  repeat split; try reflexivity.
  intros attrs. destruct (Py.assoc "subscriber_attributes" kvs); congruence.
Qed.

Lemma generate_subscriber_response_of_json (j : Py.json) (s : Subscriber) :
  generate_subscriber_response (Py.of_json j) = Ok s ->
  exists j', subscriptions s = Py.of_json j'.
Proof.
  intros H. apply generate_subscriber_response_copies in H as (_ & H & _).
  apply getitem_of_json in H. destruct H as [j' H]. eauto.
Qed.

Context {RT : Runtime}.

Lemma is_user_subscribed_on (self : Client) (app_user_id : string)
  (w w' : World) (info : Subscriber) :
  get_subscriber_info self app_user_id w = (Ok info, w') ->
  (exists j, subscriptions info = Py.of_json j) ->
  fst (is_user_subscribed self app_user_id w) <> Ok true.
Proof.
  intros Hinfo [j Hj]. unfold is_user_subscribed, bind. rewrite Hinfo, Hj.
  destruct (Py.truthy (Py.of_json j)); [|discriminate].
  unfold lift.
  destruct (Py.iter (Py.of_json j)) as [items|e] eqn:Hit; [|discriminate].
  destruct items as [|x items]; [discriminate|]. cbn [Py.next].
  rewrite (@getattr_item_of_json j (x :: items) x "expires_date" Hit)
    by now left.
  discriminate.
Qed.

Lemma get_subscriber_info_of_json (self : Client) (app_user_id : string)
  (w w' : World) (info : Subscriber) :
  get_subscriber_info self app_user_id w = (Ok info, w') ->
  exists j, subscriptions info = Py.of_json j.
Proof.
  unfold get_subscriber_info. cbv zeta. unfold bind at 1.
  rewrite make_request_run.
  destruct (dump_payload None); [|discriminate].
  destruct (request_headers _ _ _); [|discriminate].
  cbv zeta.
  destruct (receive _) as [v|e] eqn:Hr; [|discriminate].
  apply receive_Ok in Hr as (resp & j & _ & _ & _ & ->).
  unfold bind, lift.
  destruct (Py.getitem (Py.of_json j) "subscriber") as [sub|e] eqn:Hs;
    [|discriminate].
  apply getitem_of_json in Hs as [j' ->].
  destruct (generate_subscriber_response (Py.of_json j')) as [s|e] eqn:Hg;
    [|discriminate].
  intros [= <- _]. now apply generate_subscriber_response_of_json in Hg.
Qed.

(** Whatever the remote end answers, [is_user_subscribed] does not return
    [True]: with a subscription in the answer it reads an attribute of the
    first key of the map and raises. *)
Lemma is_user_subscribed_never_true (self : Client) (app_user_id : string)
  (w : World) :
  fst (is_user_subscribed self app_user_id w) <> Ok true.
Proof.
  destruct (get_subscriber_info self app_user_id w) as [[info|e] w'] eqn:Hi.
  - eapply is_user_subscribed_on; [exact Hi|].
    eapply get_subscriber_info_of_json; exact Hi.
  - unfold is_user_subscribed, bind. rewrite Hi. discriminate.
Qed.

End SubscriberDecoding.

(** C1.  The subscriber of the fixture has one subscription, which expires
    in 2099, and the clock stands at the first second of 2021: the
    subscriber is subscribed, and [is_user_subscribed] raises
    [AttributeError] after one request.  Without subscriptions it returns
    [False]. *)
Theorem is_user_subscribed_on_active_subscription :
  Fixtures.strptime_utc "2099-01-01T00:00:00Z" "%Y-%m-%dT%H:%M:%SZ"
  = Ok 4070908800%Z /\
  (Client.now (Fixtures.fresh (Fixtures.answers 200 (Some Fixtures.subscriber_body)))
   < 4070908800)%Z /\
  fst (@Client.is_user_subscribed
         (Fixtures.double (Fixtures.answers 200 (Some Fixtures.subscriber_body)))
         Fixtures.public_only "u1" (Fixtures.fresh _))
  = Raise AttributeError /\
  List.length
    (Client.calls
       (snd (@Client.is_user_subscribed
               (Fixtures.double (Fixtures.answers 200 (Some Fixtures.subscriber_body)))
               Fixtures.public_only "u1" (Fixtures.fresh _)))) = 1%nat /\
  fst (@Client.is_user_subscribed
         (Fixtures.double
            (Fixtures.answers 200
               (Some (Fixtures.body_of (Fixtures.subscriber_with (Py.JObj []))))))
         Fixtures.public_only "u1" (Fixtures.fresh _))
  = Ok false.
Proof.
  repeat split.
Qed.

(** C5.  Decoding the subscriber of the fixture gives a record whose nested
    maps are the maps of the body as [json.loads] built them: the keys are
    kept, and each entry is a plain [dict], not an instance of
    [Entitlement], [Subscription] or [SubscriberAttribute]. *)
Theorem subscriber_nested_maps_stay_raw :
  exists s subscription entitlement attribute,
    Client.generate_subscriber_response (Py.of_json Fixtures.subscriber_json) = Ok s
    /\ Response.subscriptions s = Py.PyDict [("monthly", Py.PyDict subscription)]
    /\ Response.entitlements s = Py.PyDict [("pro", Py.PyDict entitlement)]
    /\ Response.subscriber_attributes s = Py.PyDict [("$email", Py.PyDict attribute)]
    /\ Py.PyDict subscription = Py.of_json Fixtures.subscription_json
    /\ map fst subscription = Response.Subscription_fields
    /\ map fst entitlement = Response.Entitlement_fields
    /\ map fst attribute = Response.SubscriberAttribute_fields
    /\ Response.is_instance "Subscription" (Py.PyDict subscription) = false
    /\ Response.is_instance "Entitlement" (Py.PyDict entitlement) = false
    /\ Response.is_instance "SubscriberAttribute" (Py.PyDict attribute) = false
    /\ Py.getattr (Py.PyDict subscription) "expires_date" = Raise AttributeError.
Proof.
  do 4 eexists. repeat split.
Qed.

(* ================================================================== *)
(** * Offerings (C4) *)

Section OfferingsDecoding.

Import Client Response.

(** The loop body of [generate_offerings_response] raises on every item:
    where [data["offerings"]] can be subscripted with ["packages"] it is a
    [dict], and then the items of the loop are its keys, which are not
    mappings. *)
Lemma generate_offerings_response_only_empty (data : Py.value) (r : Offerings) :
  generate_offerings_response data = Ok r -> offerings r = [].
Proof.
  unfold generate_offerings_response.
  destruct (Py.getitem data "offerings") as [offs|e]; [|discriminate].
  cbn [rbind].
  destruct (Py.iter offs) as [items|e] eqn:Hit; [|discriminate].
  cbn [rbind].
  destruct items as [|o items].
  - cbn [mapR rbind].
    destruct (Py.getitem data "current_offering_id"); [|discriminate].
    cbn [rbind]. now intros [= <-].
  - cbn [mapR].
    destruct offs; try discriminate Hit; cbn [Py.getitem rbind];
      try discriminate.
    cbn [Py.iter] in Hit. injection Hit as Ho.
    destruct kvs as [|[k x] kvs]; [discriminate Ho|].
    cbn [map fst] in Ho. injection Ho as <- _.
    destruct (Py.assoc "packages" ((k, x) :: kvs)) as [pk|]; cbn [rbind];
      [|discriminate].
    destruct (Py.iter pk) as [ps|e]; cbn [rbind]; [|discriminate].
    destruct (mapR _ ps); cbn [rbind Py.kwargs]; discriminate.
Qed.

Context {RT : Runtime}.

(** [get_offerings] calls a method the class does not have. *)
Lemma get_offerings_never_returns (self : Client) (app_user_id : string)
  (platform : Enums.Platform) (w : World) :
  is_ok (fst (get_offerings self app_user_id platform w)) = false.
Proof.
  unfold get_offerings. cbv zeta. unfold bind.
  destruct (make_request _ _ _ _ _ _ _ w) as [[data|e] w']; reflexivity.
Qed.

End OfferingsDecoding.

(** C4.  On a body with two offerings that have their own packages,
    [generate_offerings_response] raises [TypeError], because it subscripts
    the list of offerings with ["packages"], and [get_offerings] raises
    [AttributeError] after its request, because it calls
    [get_offerings_response], which the class does not define. *)
Theorem get_offerings_on_two_offerings :
  Client.generate_offerings_response (Py.of_json Fixtures.offerings_body)
  = Raise TypeError /\
  fst (@Client.get_offerings
         (Fixtures.double (Fixtures.answers 200 (Some Fixtures.offerings_body)))
         Fixtures.public_only "u1" Enums.IOS (Fixtures.fresh _))
  = Raise AttributeError /\
  map Client.url
    (Client.calls
       (snd (@Client.get_offerings
               (Fixtures.double (Fixtures.answers 200 (Some Fixtures.offerings_body)))
               Fixtures.public_only "u1" Enums.IOS (Fixtures.fresh _))))
  = ["https://api.revenuecat.com/v1subscribers/u1/offerings"].
Proof.
  repeat split.
Qed.

(* ================================================================== *)
(** * Promotional entitlements (C8) *)

Section Promotional.

Import Client.

Context {RT : Runtime}.

(** The payload holds an enumeration member, which [json.dumps] refuses:
    the call ends before anything is sent, whatever the arguments. *)
Lemma grant_promotional_entitlement_raises (self : Client)
  (app_user_id entitlement_identifier : string)
  (duration : Enums.PromotionDuration) (start_time : datetime) (w : World) :
  grant_promotional_entitlement self app_user_id entitlement_identifier
    duration start_time w = (Raise TypeError, w).
Proof.
  unfold grant_promotional_entitlement. cbv zeta.
  apply bind_raise. rewrite make_request_run. reflexivity.
Qed.

End Promotional.

(** C8.  Granting a promotional entitlement with a secret key raises
    [TypeError] and sends nothing; the path handed to [make_request] begins
    and ends with a line break and eight spaces, so it is not the path
    [/subscribers/u1/entitlements/pro/promotional], and its encoding begins
    with [%0A%20]. *)
Theorem grant_promotional_entitlement_on_fixture :
  Client.grant_promotional_entitlement Fixtures.secret_only "u1" "pro"
    Enums.DAILY (Fixtures.new_year_2021 Fixtures.serves_subscriber)
    (Fixtures.fresh _)
  = (Raise TypeError, Fixtures.fresh _) /\
  Client.calls (Fixtures.fresh Fixtures.serves_subscriber) = [] /\
  Client.grant_promotional_entitlement_path "u1" "pro"
  <> "/subscribers/u1/entitlements/pro/promotional" /\
  Utils.encode (Client.grant_promotional_entitlement_path "u1" "pro")
  = "%0A%20%20%20%20%20%20%20%20/subscribers/u1/entitlements/pro/promotional%0A%20%20%20%20%20%20%20%20".
Proof.
  repeat split. discriminate.
Qed.

(* ================================================================== *)
(** * Epoch milliseconds (C9) *)

Section EpochMilliseconds.

Import Client.

Context {RT : Runtime}.

Lemma bind_lift_calls {A B} (m : M A) (k : A -> result B) (w : World) :
  calls (snd (bind m (fun a => lift (k a)) w)) = calls (snd (m w)).
Proof.
  unfold bind, lift. destruct (m w) as [[a|e] w']; reflexivity.
Qed.

(** C9.  [to_timestamp] is one binary64 multiplication of the value of
    [timestamp()] by 1000: its result is the product of the two numbers
    rounded once, to nearest, as IEEE 754 defines the operation.  The
    payloads of the two operations that send a time carry that number, and
    so does the body of every request [defer_google_subscription] sends. *)
Theorem to_timestamp_is_timestamp_times_1000 (value : datetime) :
  Utils.to_timestamp timestamp value = (timestamp value * 1000)%float /\
  Prim2SF (Utils.to_timestamp timestamp value)
  = SF64mul (Prim2SF (timestamp value)) (Prim2SF 1000%float) /\
  (forall duration,
      Py.getitem (grant_promotional_entitlement_payload duration value)
        "start_time_ms"
      = Ok (Py.PyFloat (timestamp value * 1000)%float)) /\
  Py.getitem (defer_google_subscription_payload value) "expiry_time_ms"
  = Ok (Py.PyFloat (timestamp value * 1000)%float) /\
  (forall self app_user_id product_identifier w q,
      In q (calls (snd (defer_google_subscription self app_user_id
                          product_identifier value w))) ->
      In q (calls w)
      \/ data q = Some (Py.JObj [("expiry_time_ms",
                                   Py.JFloat (timestamp value * 1000)%float)])).
Proof.
  split; [reflexivity|]. split; [apply mul_spec|].
  split; [reflexivity|]. split; [reflexivity|].
  intros self app_user_id product_identifier w q.
  unfold defer_google_subscription. cbv zeta.
  rewrite bind_lift_calls, make_request_run.
  cbn [dump_payload defer_google_subscription_payload Py.dumps rbind].
  destruct (request_headers self None (Some "secret")) as [h|e];
    [|now left].
  cbv zeta. cbn [snd calls]. rewrite in_app_iff.
  intros [H|[<-|[]]]; [now left | now right].
Qed.

End EpochMilliseconds.

Lemma to_timestamp_is_timestamp_times_1000_witness :
  Utils.to_timestamp Fixtures.timestamp_utc 1609459200%Z = 1609459200000%float /\
  forall q,
    In q (Client.calls
            (snd (Client.defer_google_subscription Fixtures.secret_only "u1"
                    "monthly"
                    (Fixtures.new_year_2021 Fixtures.serves_subscriber)
                    (Fixtures.fresh _)))) ->
    In q (Client.calls (Fixtures.fresh Fixtures.serves_subscriber))
    \/ Client.data q
       = Some (Py.JObj [("expiry_time_ms", Py.JFloat 1609459200000%float)]).
Proof.
  split; [reflexivity|].
  intros q Hq.
  destruct (@to_timestamp_is_timestamp_times_1000
              (Fixtures.double Fixtures.serves_subscriber)
              (Fixtures.new_year_2021 Fixtures.serves_subscriber))
    as (_ & _ & _ & _ & H).
  exact (H Fixtures.secret_only "u1" "monthly" (Fixtures.fresh _) q Hq).
Defined.

(* ================================================================== *)
(** * The payload of [create_purchase] (C10) *)

Section PurchasePayload.

Import Client Response.

Lemma dumps_attrs_object (attrs : list (string * SubscriberAttribute)) :
  Py.dumps (attrs_object attrs)
  = Ok (Py.JObj
          (map (fun kv => (fst kv, Py.JArr [Py.JStr (value (snd kv));
                                            Py.JInt (updated_at_ms (snd kv))]))
             attrs)).
Proof.
  unfold attrs_object. induction attrs as [|[k a] attrs IH].
  - reflexivity.
  - simpl in IH |- *.
    match type of IH with
    | rbind ?g _ = _ => destruct g as [js|e]; [|discriminate IH]
    end.
    simpl in IH |- *. now injection IH as ->.
Qed.

Lemma dumps_or_none_attrs (attributes : option (list (string * SubscriberAttribute))) :
  exists j, Py.dumps (or_none attrs_object attributes) = Ok j
            /\ (attributes = None -> j = Py.JNull).
Proof.
  destruct attributes as [a|]; cbn [or_none].
  - rewrite dumps_attrs_object. eexists. split; [reflexivity | discriminate].
  - now exists Py.JNull.
Qed.

(** With no payment mode the payload can be serialised: the body is an
    object with the ten keys of the payload in their order, the payment
    mode and each optional argument left at [None] are [null] there. *)
Lemma create_purchase_payload_dumps (app_user_id fetch_token : string)
  (product_id : option string) (price : option float)
  (currency : option string) (introductory_price : option float)
  (is_restore : bool) (presented_offering_identifier : option string)
  (attributes : option (list (string * SubscriberAttribute))) :
  exists kvs,
    dump_payload
      (Some (create_purchase_payload app_user_id fetch_token product_id price
               currency None introductory_price is_restore
               presented_offering_identifier attributes))
    = Ok (Some (Py.JObj kvs))
    /\ map fst kvs
       = ["app_user_id"; "fetch_token"; "product_id"; "price"; "currency";
          "payment_mode"; "introductory_price"; "is_restore";
          "presented_offering_identifier"; "attributes"]
    /\ Py.assoc "payment_mode" kvs = Some Py.JNull
    /\ (product_id = None -> Py.assoc "product_id" kvs = Some Py.JNull)
    /\ (price = None -> Py.assoc "price" kvs = Some Py.JNull)
    /\ (currency = None -> Py.assoc "currency" kvs = Some Py.JNull)
    /\ (introductory_price = None ->
        Py.assoc "introductory_price" kvs = Some Py.JNull)
    /\ (presented_offering_identifier = None ->
        Py.assoc "presented_offering_identifier" kvs = Some Py.JNull)
    /\ (attributes = None -> Py.assoc "attributes" kvs = Some Py.JNull).
Proof.
  destruct (dumps_or_none_attrs attributes) as (ja & Hja & Hnull).
  unfold create_purchase_payload, dump_payload.
  destruct product_id, price, currency, introductory_price,
    presented_offering_identifier; simpl; rewrite Hja; simpl;
    eexists; (split; [reflexivity|]); (split; [reflexivity|]);
    repeat split; try discriminate; try reflexivity;
    intros Hn; rewrite (Hnull Hn); reflexivity.
Qed.

End PurchasePayload.

(** C10.  A purchase recorded with a payment mode, the product identifier
    and the other optional arguments left out: the payload holds the
    [PaymentMode] member, [json.dumps] raises [TypeError], and the call ends
    there, so no body exists in which the omitted arguments could be
    [null], and nothing is sent.  The same call without payment mode sends
    one request, with every omitted argument as [null] in its body. *)
Theorem create_purchase_with_payment_mode_has_no_body :
  @Client.create_purchase (Fixtures.double Fixtures.serves_subscriber)
    Fixtures.public_only "u1" Enums.IOS "token" None None None
    (Some Enums.FREE_TRIAL) None false None None (Fixtures.fresh _)
  = (Raise TypeError, Fixtures.fresh _)
  /\ Client.dump_payload
       (Some (Client.create_purchase_payload "u1" "token" None None None
                (Some Enums.FREE_TRIAL) None false None None))
     = Raise TypeError
  /\ exists q kvs,
       Client.calls
         (snd (@Client.create_purchase
                 (Fixtures.double Fixtures.serves_subscriber)
                 Fixtures.public_only "u1" Enums.IOS "token" None None None
                 None None false None None (Fixtures.fresh _))) = [q]
       /\ Client.data q = Some (Py.JObj kvs)
       /\ Py.assoc "product_id" kvs = Some Py.JNull
       /\ Py.assoc "price" kvs = Some Py.JNull
       /\ Py.assoc "currency" kvs = Some Py.JNull
       /\ Py.assoc "payment_mode" kvs = Some Py.JNull
       /\ Py.assoc "introductory_price" kvs = Some Py.JNull
       /\ Py.assoc "presented_offering_identifier" kvs = Some Py.JNull
       /\ Py.assoc "attributes" kvs = Some Py.JNull.
Proof.
  split; [reflexivity|]. split; [reflexivity|].
  do 2 eexists. repeat split.
Qed.

(* ================================================================== *)
(** * Further properties of [utils.py] and [enums.py] *)

Section QuoteFurther.

Import Utils.

Lemma length_append (a b : string) :
  String.length (a ++ b) = String.length a + String.length b.
Proof.
  induction a as [|c a IH]; simpl; [reflexivity | now rewrite IH].
Qed.

Lemma quote_byte_length (c : ascii) :
  String.length (quote_byte "/" c)
  = if is_safe "/" c then 1 else 3.
Proof.
  unfold quote_byte. destruct (is_safe "/" c); reflexivity.
Qed.

(** X1.  Two paths with the same encoding are the same path: distinct
    paths are never requested under one URL. *)
Theorem encode_injective (a b : string) : encode a = encode b <-> a = b.
Proof.
  split; [|now intros ->].
  intros H. apply (f_equal percent_decode) in H.
  unfold encode in H. now rewrite !percent_decode_quote in H.
Qed.

(** X2.  Lengths in bytes of the UTF-8 form, which is how a [str] is
    represented here: the encoding, which is ASCII, has as many characters
    as the UTF-8 form of the string has bytes, and two more for each byte
    that is escaped, so between one and three times that number of bytes.
    (A character outside ASCII counts with each of its bytes.) *)
Theorem encode_length (s : string) :
  String.length (encode s)
  = String.length s
    + 2 * List.length (filter (fun c => negb (is_safe "/" c))
                         (list_ascii_of_string s))
  /\ String.length s <= String.length (encode s) <= 3 * String.length s.
Proof.
  unfold encode, quote. induction s as [|c s [IH1 IH2]].
  - simpl. repeat split; lia.
  - cbn [quote_from_bytes list_ascii_of_string filter String.length].
    rewrite length_append, quote_byte_length.
    destruct (is_safe "/" c); cbn [negb List.length]; lia.
Qed.

Lemma encode_safe_prefix (c : ascii) (s : string) :
  encode (String c s) = String c s ->
  is_safe "/" c = true /\ encode s = s.
Proof.
  unfold encode, quote. simpl. unfold quote_byte.
  destruct (is_safe "/" c) eqn:Hc; simpl.
  - intros [= H]. now split.
  - intros [= _ H]. exfalso.
    apply (f_equal String.length) in H.
    cbn [String.length] in H.
    pose proof (encode_length s) as [_ [Hlen _]].
    unfold encode, quote in Hlen. lia.
Qed.

(** X3.  The encoding leaves a string as it is exactly when every byte of
    the string is safe, and encoding twice is encoding once exactly in that
    case: a string in which something was escaped is escaped again, its
    [%] becoming [%25]. *)
Theorem encode_fixed_exactly_on_safe (s : string) :
  (encode s = s
   <-> forallb (is_safe "/") (list_ascii_of_string s) = true)
  /\ (encode (encode s) = encode s
      <-> forallb (is_safe "/") (list_ascii_of_string s) = true).
Proof.
  assert (Hfix : encode s = s
                 <-> forallb (is_safe "/") (list_ascii_of_string s) = true).
  { induction s as [|c s IH]; simpl.
    - split; reflexivity.
    - rewrite andb_true_iff, <- IH. split.
      + apply encode_safe_prefix.
      + intros [Hc Hs]. unfold encode, quote in *. simpl.
        unfold quote_byte. rewrite Hc. simpl. now rewrite Hs. }
  split; [exact Hfix|].
  rewrite <- Hfix. apply encode_injective.
Qed.

End QuoteFurther.

(** X4.  The enumerations [PaymentMode], [PeriodType] and [OwnershipType]
    give each member back from its wire string and [AttributionSource] from
    its number; a string that is not a wire string of the class, a number
    outside 0..5, raises [ValueError]. *)
Theorem remaining_enums_round_trip :
  (forall m, Enums.lookup_by_value Enums.PaymentMode_cls
               (Enums.value Enums.PaymentMode_cls m) = Ok m) /\
  (forall m, Enums.lookup_by_value Enums.PeriodType_cls
               (Enums.value Enums.PeriodType_cls m) = Ok m) /\
  (forall m, Enums.lookup_by_value Enums.OwnershipType_cls
               (Enums.value Enums.OwnershipType_cls m) = Ok m) /\
  (forall m, Enums.AttributionSource_lookup (Enums.AttributionSource_value m)
             = Ok m) /\
  (forall w, In w (Enums.wire_values Enums.PaymentMode_cls)
             \/ Enums.lookup_by_value Enums.PaymentMode_cls w = Raise ValueError) /\
  (forall w, In w (Enums.wire_values Enums.PeriodType_cls)
             \/ Enums.lookup_by_value Enums.PeriodType_cls w = Raise ValueError) /\
  (forall w, In w (Enums.wire_values Enums.OwnershipType_cls)
             \/ Enums.lookup_by_value Enums.OwnershipType_cls w
                = Raise ValueError) /\
  (forall z, (0 <= z <= 5)%Z
             \/ Enums.AttributionSource_lookup z = Raise ValueError) /\
  Enums.lookup_by_value Enums.OwnershipType_cls "purchased" = Raise ValueError.
Proof.
  repeat split.
  - intros m. apply lookup_by_value_of_value.
    + repeat constructor; simpl; intuition discriminate.
    + destruct m; simpl; tauto.
  - intros m. apply lookup_by_value_of_value.
    + repeat constructor; simpl; intuition discriminate.
    + destruct m; simpl; tauto.
  - intros m. apply lookup_by_value_of_value.
    + repeat constructor; simpl; intuition discriminate.
    + destruct m; simpl; tauto.
  - intros m. now destruct m.
  - intros w.
    destruct (in_dec string_dec w (Enums.wire_values Enums.PaymentMode_cls));
      [now left | right; now apply lookup_by_value_unknown].
  - intros w.
    destruct (in_dec string_dec w (Enums.wire_values Enums.PeriodType_cls));
      [now left | right; now apply lookup_by_value_unknown].
  - intros w.
    destruct (in_dec string_dec w (Enums.wire_values Enums.OwnershipType_cls));
      [now left | right; now apply lookup_by_value_unknown].
  - intros z. unfold Enums.AttributionSource_lookup.
    cbn [find Enums.AttributionSource_members Enums.AttributionSource_value].
    destruct (Z.eqb_spec 0 z); [left; lia|].
    destruct (Z.eqb_spec 1 z); [left; lia|].
    destruct (Z.eqb_spec 2 z); [left; lia|].
    destruct (Z.eqb_spec 3 z); [left; lia|].
    destruct (Z.eqb_spec 4 z); [left; lia|].
    destruct (Z.eqb_spec 5 z); [left; lia|].
    now right.
Qed.

(* ================================================================== *)
(** * Further properties of the record constructors *)

Section Constructors.

Import Client Response.

Lemma assoc_In {A} (k : string) (kvs : list (string * A)) (v : A) :
  Py.assoc k kvs = Some v -> In k (map fst kvs).
Proof.
  induction kvs as [|[k' x] r IH]; simpl; [discriminate|].
  destruct (String.eqb_spec k' k) as [->|Hne]; [now left|].
  intros H. right. now apply IH.
Qed.

Lemma assoc_None {A} (k : string) (kvs : list (string * A)) :
  Py.assoc k kvs = None <-> ~ In k (map fst kvs).
Proof.
  induction kvs as [|[k' x] r IH]; simpl; [tauto|].
  destruct (String.eqb_spec k' k) as [->|Hne].
  - split; [discriminate | intros H; exfalso; apply H; now left].
  - rewrite IH. tauto.
Qed.

Lemma only_fields_spec (names : list string) (kw : list (string * Py.value)) :
  (Py.only_fields names kw = Ok tt
   <-> forall k, In k (map fst kw) -> In k names)
  /\ (Py.only_fields names kw = Ok tt
      \/ Py.only_fields names kw = Raise TypeError).
Proof.
  unfold Py.only_fields.
  destruct (forallb _ kw) eqn:Hf.
  - split; [|now left]. split; [|reflexivity]. intros _ k Hk.
    rewrite forallb_forall in Hf.
    apply in_map_iff in Hk as [[k' x] [<- Hin]].
    apply Hf in Hin. apply existsb_exists in Hin as [n [Hn Heq]].
    simpl in Heq. apply String.eqb_eq in Heq. now subst.
  - split; [|now right]. split; [discriminate|]. intros H. exfalso.
    assert (Ht : forallb
                   (fun kv : string * Py.value =>
                      existsb (String.eqb (fst kv)) names) kw = true).
    { apply forallb_forall. intros [k x] Hin. apply existsb_exists.
      exists k. split; [|apply String.eqb_refl].
      apply H. apply in_map_iff. now exists (k, x). }
    congruence.
Qed.

Lemma required_spec (kw : list (string * Py.value)) (name : string) :
  (In name (map fst kw) -> exists v, Py.required kw name = Ok v)
  /\ (~ In name (map fst kw) -> Py.required kw name = Raise TypeError).
Proof.
  unfold Py.required. destruct (Py.assoc name kw) as [v|] eqn:Ha.
  - split; [eauto|]. intros H. exfalso. apply H. now apply assoc_In in Ha.
  - split; [|reflexivity]. intros H. now apply assoc_None in Ha.
Qed.

Lemma required_Ok_In (kw : list (string * Py.value)) (name : string)
  (v : Py.value) :
  Py.required kw name = Ok v -> In name (map fst kw).
Proof.
  unfold Py.required. destruct (Py.assoc name kw) eqn:Ha; [|discriminate].
  intros _. now apply assoc_In in Ha.
Qed.

Lemma required_getitem (kw : list (string * Py.value)) (name : string)
  (v : Py.value) :
  Py.required kw name = Ok v -> Py.getitem (Py.PyDict kw) name = Ok v.
Proof.
  unfold Py.required, Py.getitem.
  destruct (Py.assoc name kw); [auto | discriminate].
Qed.

Ltac ok_step H :=
  match type of H with
  | rbind ?c _ = Ok _ =>
      let E := fresh "E" in
      destruct c eqn:E; cbn [rbind] in H; [|discriminate H]
  end.

(** X5.  [generate_subscriber_response] accepts exactly the dicts whose
    keys are all field names of [Subscriber] and include every field but
    [subscriber_attributes]; on anything else it raises [TypeError]. *)
Theorem generate_subscriber_response_accepts (data : Py.value) :
  (is_ok (generate_subscriber_response data) = true
   <-> exists kw,
         data = Py.PyDict kw
         /\ (forall k, In k (map fst kw) -> In k Subscriber_fields)
         /\ (forall f, In f Subscriber_fields ->
                       f = "subscriber_attributes" \/ In f (map fst kw)))
  /\ (forall e, generate_subscriber_response data = Raise e -> e = TypeError).
Proof.
  unfold generate_subscriber_response.
  destruct data as [| | | | | |kw| |];
    try (split; [split; [discriminate | intros (kw' & H & _); discriminate H]
                | now intros e [= <-]]).
  cbn [Py.kwargs rbind]. unfold Subscriber_new.
  destruct (only_fields_spec Subscriber_fields kw) as [Hiff Hcases].
  split.
  - split.
    + intros H. exists kw. split; [reflexivity|].
      destruct (Py.only_fields Subscriber_fields kw) as [[]|e] eqn:Ho;
        [|discriminate H].
      cbn [rbind] in H. split; [now apply Hiff|].
      repeat match type of H with
             | is_ok (rbind ?c _) = true =>
                 let E := fresh "E" in
                 destruct c eqn:E; cbn [rbind] in H; [|discriminate H]
             end.
      unfold Subscriber_fields. simpl.
      intuition (subst; eauto using required_Ok_In).
    + intros (kw' & [= <-] & Hk & Hf).
      apply Hiff in Hk. rewrite Hk. cbn [rbind].
      repeat match goal with
             | |- is_ok (rbind (Py.required kw ?n) _) = true =>
                 let v := fresh "v" in
                 destruct (proj1 (required_spec kw n)) as [v ->];
                 [ destruct (Hf n) as [Hx|Hx];
                   [simpl; tauto | discriminate Hx | exact Hx]
                 | cbn [rbind] ]
             end.
      reflexivity.
  - intros e.
    destruct Hcases as [-> | ->]; [|now intros [= <-]].
    cbn [rbind].
    repeat match goal with
           | |- rbind (Py.required kw ?n) _ = Raise _ -> _ =>
               let E := fresh "E" in
               destruct (Py.required kw n) eqn:E; cbn [rbind];
               [| unfold Py.required in E; destruct (Py.assoc n kw);
                  [discriminate E | injection E as <-; now intros [= <-]] ]
           end.
    discriminate.
Qed.

(** X6.  A subscriber that [generate_subscriber_response] returns holds, in
    each field, the value the body has under the field's name, unchanged;
    [subscriber_attributes] is [None] when the body has no such key. *)
Theorem generate_subscriber_response_lossless (data : Py.value)
  (s : Subscriber) :
  generate_subscriber_response data = Ok s ->
  Py.getitem data "original_app_user_id" = Ok (original_app_user_id s)
  /\ Py.getitem data "original_application_version"
     = Ok (original_application_version s)
  /\ Py.getitem data "first_seen" = Ok (first_seen s)
  /\ Py.getitem data "last_seen" = Ok (last_seen s)
  /\ Py.getitem data "management_url" = Ok (management_url s)
  /\ Py.getitem data "original_purchase_date" = Ok (original_purchase_date s)
  /\ Py.getitem data "other_purchases" = Ok (other_purchases s)
  /\ Py.getitem data "entitlements" = Ok (entitlements s)
  /\ Py.getitem data "subscriptions" = Ok (subscriptions s)
  /\ Py.getitem data "non_subscriptions" = Ok (non_subscriptions s)
  /\ subscriber_attributes s
     = match Py.getitem data "subscriber_attributes" with
       | Ok v => v
       | Raise _ => Py.PyNone
       end.
Proof.
  unfold generate_subscriber_response. intros H.
  destruct data as [| | | | | |kw| |]; try discriminate H.
  cbn [Py.kwargs rbind] in H. unfold Subscriber_new in H.
  repeat ok_step H. injection H as <-.
  cbn [original_app_user_id original_application_version first_seen last_seen
       management_url original_purchase_date other_purchases entitlements
       subscriptions non_subscriptions subscriber_attributes].
  repeat split; try now apply required_getitem.
  unfold Py.optional, Py.getitem.
  now destruct (Py.assoc "subscriber_attributes" kw).
Qed.

(** X7.  No body suits both ways of decoding a subscriber: a body with a
    [subscriber] member, which [get_subscriber_info] unwraps, makes
    [generate_subscriber_response] raise [TypeError] when it is handed the
    whole body, as every other operation that returns a subscriber hands
    it; and a body the latter accept has no [subscriber] member. *)
Theorem subscriber_wrapper_mismatch (data : Py.value) :
  (is_ok (Py.getitem data "subscriber") = true ->
   generate_subscriber_response data = Raise TypeError)
  /\ (is_ok (generate_subscriber_response data) = true ->
      Py.getitem data "subscriber" = Raise (KeyError "subscriber")).
Proof.
  assert (Hno : ~ In "subscriber" Subscriber_fields)
    by (unfold Subscriber_fields; simpl; intuition discriminate).
  split.
  - intros H.
    destruct (generate_subscriber_response data) as [s|e] eqn:Hg.
    + exfalso. apply Hno.
      destruct (generate_subscriber_response_accepts data) as [[Hacc _] _].
      destruct Hacc as (kw & -> & Hk & _); [now rewrite Hg|].
      apply Hk. cbn [Py.getitem] in H.
      destruct (Py.assoc "subscriber" kw) eqn:Ha; [|discriminate H].
      now apply assoc_In in Ha.
    + f_equal.
      now apply (proj2 (generate_subscriber_response_accepts data)).
  - intros H.
    destruct (generate_subscriber_response_accepts data) as [[Hacc _] _].
    destruct (Hacc H) as (kw & -> & Hk & _).
    cbn [Py.getitem].
    destruct (Py.assoc "subscriber" kw) eqn:Ha; [|reflexivity].
    exfalso. apply Hno, Hk. now apply assoc_In in Ha.
Qed.

End Constructors.

Lemma generate_subscriber_response_lossless_witness :
  exists s,
    Client.generate_subscriber_response (Py.of_json Fixtures.subscriber_json) = Ok s
    /\ Py.getitem (Py.of_json Fixtures.subscriber_json) "last_seen"
       = Ok (Response.last_seen s)
    /\ Response.subscriber_attributes s
       = match Py.getitem (Py.of_json Fixtures.subscriber_json)
                 "subscriber_attributes" with
         | Ok v => v
         | Raise _ => Py.PyNone
         end.
Proof.
  eexists. split; [reflexivity|].
  pose proof (@generate_subscriber_response_lossless
                (Py.of_json Fixtures.subscriber_json) _ eq_refl)
    as (_ & _ & _ & H4 & _ & _ & _ & _ & _ & _ & H11).
  exact (conj H4 H11).
Defined.

(* ================================================================== *)
(** * Further properties of the offerings *)

Section OfferingsFurther.

Import Client Response.

(** X8.  [Package] called on the keywords of a mapping accepts exactly the
    mappings that have the two keys [identifier] and
    [platform_product_identifier] and no other.  [Offering] called on the
    keywords of a mapping together with [packages=] accepts exactly the
    mappings that have the keys [description] and [identifier] and no
    other: a mapping that brings its own [packages] is refused with
    [TypeError], and an accepted one gets the packages that were passed. *)
Theorem Package_and_Offering_accept (kw : list (string * Py.value))
  (pkgs : list Package) :
  (is_ok (Package_new kw) = true
   <-> (forall k, In k (map fst kw) ->
                  k = "identifier" \/ k = "platform_product_identifier")
       /\ In "identifier" (map fst kw)
       /\ In "platform_product_identifier" (map fst kw))
  /\ (is_ok (Offering_new kw pkgs) = true
      <-> (forall k, In k (map fst kw) -> k = "description" \/ k = "identifier")
          /\ In "description" (map fst kw)
          /\ In "identifier" (map fst kw))
  /\ (In "packages" (map fst kw) -> Offering_new kw pkgs = Raise TypeError)
  /\ (forall o, Offering_new kw pkgs = Ok o -> packages o = pkgs).
Proof.
  split; [|split; [|split]].
  - unfold Package_new.
    destruct (only_fields_spec ["identifier"; "platform_product_identifier"] kw)
      as [Hiff Hcases].
    split.
    + intros H.
      destruct (Py.only_fields _ kw) as [[]|e] eqn:Ho; [|discriminate H].
      cbn [rbind] in H.
      destruct (Py.required kw "identifier") eqn:E1; [|discriminate H].
      cbn [rbind] in H.
      destruct (Py.required kw "platform_product_identifier") eqn:E2;
        [|discriminate H].
      repeat split; eauto using required_Ok_In.
      intros k Hk. apply (proj1 Hiff eq_refl) in Hk. simpl in Hk.
      destruct Hk as [<-|[<-|[]]]; auto.
    + intros (Hk & H1 & H2).
      assert (Ho : Py.only_fields ["identifier"; "platform_product_identifier"] kw
                   = Ok tt).
      { apply Hiff. intros k Hin. apply Hk in Hin.
        destruct Hin as [-> | ->]; simpl; auto. }
      rewrite Ho. cbn [rbind].
      destruct (proj1 (required_spec kw "identifier") H1) as [v1 ->].
      destruct (proj1 (required_spec kw "platform_product_identifier") H2)
        as [v2 ->].
      reflexivity.
  - unfold Offering_new.
    destruct (only_fields_spec ["description"; "identifier"; "packages"] kw)
      as [Hiff Hcases].
    destruct (Py.assoc "packages" kw) as [p|] eqn:Hp.
    + split; [discriminate|]. intros (Hk & _).
      apply assoc_In in Hp. apply Hk in Hp. destruct Hp; discriminate.
    + apply assoc_None in Hp. split.
      * intros H.
        destruct (Py.only_fields _ kw) as [[]|e] eqn:Ho; [|discriminate H].
        cbn [rbind] in H.
        destruct (Py.required kw "description") eqn:E1; [|discriminate H].
        cbn [rbind] in H.
        destruct (Py.required kw "identifier") eqn:E2; [|discriminate H].
        repeat split; eauto using required_Ok_In.
        intros k Hk. pose proof (proj1 Hiff eq_refl k Hk) as Hin.
        simpl in Hin. destruct Hin as [<-|[<-|[<-|[]]]]; auto.
        contradiction.
      * intros (Hk & H1 & H2).
        assert (Ho : Py.only_fields ["description"; "identifier"; "packages"] kw
                     = Ok tt).
        { apply Hiff. intros k Hin. apply Hk in Hin.
        destruct Hin as [-> | ->]; simpl; auto. }
        rewrite Ho. cbn [rbind].
        destruct (proj1 (required_spec kw "description") H1) as [v1 ->].
        destruct (proj1 (required_spec kw "identifier") H2) as [v2 ->].
        reflexivity.
  - intros Hin. unfold Offering_new.
    destruct (Py.assoc "packages" kw) eqn:Hp; [reflexivity|].
    now apply assoc_None in Hp.
  - intros o. unfold Offering_new.
    destruct (Py.assoc "packages" kw); [discriminate|].
    destruct (Py.only_fields _ kw); [|discriminate]. cbn [rbind].
    destruct (Py.required kw "description"); [|discriminate]. cbn [rbind].
    destruct (Py.required kw "identifier"); [|discriminate]. cbn [rbind].
    now intros [= <-].
Qed.

(** X9.  [generate_offerings_response] returns on the bodies whose
    [offerings] member is iterable and empty, and on no other: what it
    returns then has no offerings and the [current_offering_id] of the
    body.  With one offering or more in the body it raises. *)
Theorem generate_offerings_response_returns_iff (data : Py.value)
  (r : Offerings) :
  generate_offerings_response data = Ok r
  <-> exists offs,
        Py.getitem data "offerings" = Ok offs
        /\ Py.iter offs = Ok []
        /\ Py.getitem data "current_offering_id" = Ok (current_offering_id r)
        /\ offerings r = [].
Proof.
  unfold generate_offerings_response. split.
  - destruct (Py.getitem data "offerings") as [offs|e]; [|discriminate].
    cbn [rbind].
    destruct (Py.iter offs) as [items|e] eqn:Hit; [|discriminate].
    cbn [rbind].
    destruct items as [|o items].
    + cbn [mapR rbind].
      destruct (Py.getitem data "current_offering_id"); [|discriminate].
      cbn [rbind]. intros [= <-]. exists offs. auto.
    + cbn [mapR].
      destruct offs; try discriminate Hit; cbn [Py.getitem rbind];
        try discriminate.
      cbn [Py.iter] in Hit. injection Hit as Ho.
      destruct kvs as [|[k x] kvs]; [discriminate Ho|].
      cbn [map fst] in Ho. injection Ho as <- _.
      destruct (Py.assoc "packages" ((k, x) :: kvs)) as [pk|]; cbn [rbind];
        [|discriminate].
      destruct (Py.iter pk) as [ps|e]; cbn [rbind]; [|discriminate].
      destruct (mapR _ ps); cbn [rbind Py.kwargs]; discriminate.
  - intros (offs & H1 & H2 & H3 & Ho).
    rewrite H1. cbn [rbind]. rewrite H2. cbn [rbind mapR]. rewrite H3.
    cbn [rbind]. destruct r as [cid os]. cbn in Ho |- *. now subst.
Qed.

End OfferingsFurther.

(* ================================================================== *)
(** * Further properties of [make_request] *)

Section MakeRequestFurther.

Import Client.

Context {RT : Runtime}.




(** X10.  A call of [make_request] makes one attempt: either it fails
    before the exchange, because the payload cannot be serialised or the
    credential is missing, and the transport is not used; or it hands one
    request to the transport and its result is what the exchange gave.  It
    never retries, and it leaves the clock alone. *)
Theorem make_request_sends_at_most_once (self : Client) (method path : string)
  (payload platform : option Py.value) (key : option string) (timeout : Z)
  (w : World) :
  let run := make_request self method path payload platform key timeout w in
  now (snd run) = now w /\
  ((calls (snd run) = calls w
    /\ is_ok (fst run) = false
    /\ (is_ok (dump_payload payload) = false
        \/ is_ok (request_headers self platform key) = false))
   \/ (exists q,
         calls (snd run) = (calls w ++ [q])%list
         /\ fst run = receive (session_request q)
         /\ is_ok (dump_payload payload) = true
         /\ is_ok (request_headers self platform key) = true)).
Proof.
  cbv zeta. rewrite make_request_run.
  destruct (dump_payload payload) as [d|e]; [|split; [reflexivity|left; auto]].
  destruct (request_headers self platform key) as [h|e];
    [|split; [reflexivity|left; auto]].
  cbv zeta. split; [reflexivity|]. right. eexists. repeat split.
Qed.


End MakeRequestFurther.


(* ================================================================== *)
(** * Further properties of the operations *)

Section OperationsFurther.

Import Client Response.

Context {RT : Runtime}.

Lemma bind_snd_pure {A B} (m : M A) (k : A -> M B) (w : World) :
  (forall a w', snd (k a w') = w') -> snd (bind m k w) = snd (m w).
Proof.
  intros H. unfold bind. destruct (m w) as [[a|e] w']; [apply H | reflexivity].
Qed.

Lemma bind_fst_raise {A B} (m : M A) (k : A -> M B) (w : World) (e : exn) :
  fst (m w) = Raise e -> fst (bind m k w) = Raise e.
Proof.
  unfold bind. destruct (m w) as [[a|e'] w']; cbn [fst]; intros H;
    [discriminate H | now injection H as ->].
Qed.

(** The steps after the exchange use neither the transport nor the clock. *)
Ltac pure_steps :=
  intros; unfold bind, lift, ret, raise, datetime_now;
  repeat match goal with
         | |- context [match ?x with _ => _ end] => destruct x
         end;
  reflexivity.

Ltac unfold_operation :=
  unfold forget, get_subscriber_info, is_user_subscribed,
    update_subscriber_attrs, delete_subscriber, create_purchase,
    grant_promotional_entitlement, revoke_promotinal_entitlements,
    revoke_google_subscription, defer_google_subscription,
    refund_google_subscription, add_user_attribution, get_offerings,
    override_current_offering, delete_current_offering_override;
  cbv zeta.

Lemma perform_snd (self : Client) (op : operation) (w : World) :
  snd (perform self op w)
  = snd (make_request self (method_of op) (path_of op) (payload_of op)
           (platform_of op) (Some (key_of self op)) default_timeout w).
Proof.
  destruct op;
    cbn [perform method_of path_of payload_of platform_of key_of];
    unfold_operation; unfold_operation;
    repeat (rewrite bind_snd_pure by pure_steps); reflexivity.
Qed.

Lemma perform_fst_raise (self : Client) (op : operation) (w : World) (e : exn) :
  fst (make_request self (method_of op) (path_of op) (payload_of op)
         (platform_of op) (Some (key_of self op)) default_timeout w) = Raise e ->
  fst (perform self op w) = Raise e.
Proof.
  destruct op;
    cbn [perform method_of path_of payload_of platform_of key_of];
    unfold_operation; unfold_operation; intros H;
    repeat match goal with
           | |- fst (bind _ _ _) = _ => apply bind_fst_raise
           end;
    exact H.
Qed.

(** X12.  Every public operation is one call of [make_request], with the
    method, path, payload, platform and key tier of its source text and the
    timeout of five seconds, followed by steps that use neither the
    transport nor the clock: the state after the operation is the state
    after that call, so at most one request is sent, and an exception of
    that call leaves the operation unchanged, nothing catches it. *)
Theorem perform_is_one_make_request (self : Client) (op : operation)
  (w : World) :
  let call :=
    make_request self (method_of op) (path_of op) (payload_of op)
      (platform_of op) (Some (key_of self op)) 5%Z w in
  snd (perform self op w) = snd call
  /\ (forall e, fst call = Raise e -> fst (perform self op w) = Raise e)
  /\ now (snd (perform self op w)) = now w
  /\ (calls (snd (perform self op w)) = calls w
      \/ exists q, calls (snd (perform self op w)) = (calls w ++ [q])%list).
Proof.
  cbv zeta. change 5%Z with default_timeout.
  split; [apply perform_snd|]. split; [apply perform_fst_raise|].
  rewrite perform_snd, make_request_run.
  destruct (dump_payload _); [|auto].
  destruct (request_headers _ _ _); [|auto].
  cbv zeta. split; [reflexivity|]. right. eexists. reflexivity.
Qed.

(** X13.  When the exchange fails the same way for every request, with
    [Unavailable] on a dead connection or a timeout, with [RevenueCatError]
    on a 4xx or 5xx answer, every public operation either fails before
    sending anything or raises that exception. *)
Theorem exchange_failure_reaches_caller (self : Client) (op : operation)
  (w : World) (e : exn) :
  (forall q, receive (session_request q) = Raise e) ->
  fst (perform self op w) = Raise e
  \/ (calls (snd (perform self op w)) = calls w
      /\ is_ok (fst (perform self op w)) = false).
Proof.
  intros Hall.
  pose proof (perform_snd self op w) as Hs.
  pose proof (perform_fst_raise self op w) as Hf.
  rewrite make_request_run in Hs, Hf.
  destruct (dump_payload (payload_of op)) as [d|e1].
  - destruct (request_headers self (platform_of op) (Some (key_of self op)))
      as [h|e2].
    + left. apply Hf. cbv zeta. cbn [fst]. apply Hall.
    + right. rewrite Hs. split; [reflexivity|].
      now rewrite (Hf e2 eq_refl).
  - right. rewrite Hs. split; [reflexivity|].
    now rewrite (Hf e1 eq_refl).
Qed.

End OperationsFurther.

Lemma exchange_failure_reaches_caller_witness :
  fst (Client.perform Fixtures.public_only
         (@Client.GetSubscriberInfo
            (Fixtures.double (Fixtures.fails Client.Timeout)) "u1")
         (Fixtures.fresh _))
  = Raise Unavailable
  \/ (Client.calls
        (snd (Client.perform Fixtures.public_only
                (@Client.GetSubscriberInfo
                   (Fixtures.double (Fixtures.fails Client.Timeout)) "u1")
                (Fixtures.fresh _)))
      = Client.calls (Fixtures.fresh (Fixtures.fails Client.Timeout))
      /\ is_ok (fst (Client.perform Fixtures.public_only
                       (@Client.GetSubscriberInfo
                          (Fixtures.double (Fixtures.fails Client.Timeout)) "u1")
                       (Fixtures.fresh _))) = false).
Proof.
  apply (@exchange_failure_reaches_caller
           (Fixtures.double (Fixtures.fails Client.Timeout))
           Fixtures.public_only (Client.GetSubscriberInfo "u1")
           (Fixtures.fresh _) Unavailable).
  intros q. reflexivity.
Defined.

(* ================================================================== *)
(** * Further properties of the subscriber lookup *)

Section SubscriberLookup.

Import Client Response.

Context {RT : Runtime}.

Ltac pure_steps :=
  intros; unfold bind, lift, ret, raise, datetime_now;
  repeat match goal with
         | |- context [match ?x with _ => _ end] => destruct x
         end;
  reflexivity.

Lemma get_subscriber_info_snd (self : Client) (app_user_id : string)
  (w : World) :
  snd (get_subscriber_info self app_user_id w)
  = snd (make_request self "GET" ("/subscribers/" ++ app_user_id) None None
           (Some (if truthy_key (secret_key self) then "secret" else "public"))
           default_timeout w).
Proof.
  unfold get_subscriber_info. cbv zeta.
  now rewrite bind_snd_pure by pure_steps.
Qed.

(** X14.  A client that [Client.__init__] accepted sends the request of
    [get_subscriber_info] unless it has no public key and its secret key is
    the empty string: the empty secret key passes the constructor, counts
    as missing when the key tier is chosen, and the public tier then has no
    credential.  The request carries the secret key when that is not
    empty, and the public key otherwise. *)
Theorem get_subscriber_info_credential (pk sk : option string) (self : Client)
  (app_user_id : string) (w : World) :
  init pk sk = Ok self ->
  (calls (snd (get_subscriber_info self app_user_id w)) = calls w
   <-> pk = None /\ sk = Some "")
  /\ (forall q,
        calls (snd (get_subscriber_info self app_user_id w))
        = (calls w ++ [q])%list ->
        exists token,
          Py.assoc "Authorization" (headers q)
          = Some (Py.PyStr ("Bearer " ++ token))
          /\ ((sk = Some token /\ token <> "")
              \/ (pk = Some token /\ (sk = None \/ sk = Some "")))).
Proof.
  intros Hinit. rewrite get_subscriber_info_snd, make_request_run.
  cbn [dump_payload]. unfold request_headers, key_token.
  assert (Hself : public_key self = pk /\ secret_key self = sk).
  { unfold init in Hinit. destruct pk, sk; try discriminate Hinit;
      injection Hinit as <-; split; reflexivity. }
  destruct Hself as [Hp Hs]. rewrite Hp, Hs.
  assert (Hsome : pk <> None \/ sk <> None).
  { unfold init in Hinit. destruct pk, sk; try discriminate Hinit;
      (left; discriminate) || (right; discriminate). }
  unfold truthy_key.
  destruct sk as [s|].
  - destruct (String.eqb s "") eqn:He; cbn [negb].
    + apply String.eqb_eq in He. subst s.
      change (String.eqb "public" "public") with true. cbv iota.
      destruct pk as [p|]; cbv zeta; cbn [snd calls].
      * split.
        -- split; [intros H; symmetry in H; now apply not_snoc_self in H
                  | intros [H _]; discriminate H].
        -- intros q H. apply snoc_inj in H as <-. exists p.
           split; [reflexivity|]. right. auto.
      * split.
        -- split; auto.
        -- intros q H. now apply not_snoc_self in H.
    + apply String.eqb_neq in He.
      change (String.eqb "secret" "public") with false. cbv iota zeta.
      cbn [snd calls]. split.
      * split; [intros H; symmetry in H; now apply not_snoc_self in H|].
        intros [_ [= ->]]. now contradiction He.
      * intros q H. apply snoc_inj in H as <-. exists s.
        split; [reflexivity|]. left. auto.
  - change (String.eqb "public" "public") with true. cbv iota.
    destruct pk as [p|]; [|destruct Hsome as [H|H]; now contradiction H].
    cbv zeta. cbn [snd calls]. split.
    + split; [intros H; symmetry in H; now apply not_snoc_self in H
             | intros [H _]; discriminate H].
    + intros q H. apply snoc_inj in H as <-. exists p.
      split; [reflexivity|]. right. auto.
Qed.

(** X15.  When the exchange of [get_subscriber_info] succeeds, the result
    is decided by the body alone: a body that is not a JSON object raises
    [TypeError], an object without a [subscriber] member raises
    [KeyError], and otherwise the result is what
    [generate_subscriber_response] makes of that member. *)
Theorem get_subscriber_info_unwraps (self : Client) (app_user_id : string)
  (w : World) (q : Request) (resp : HttpResponse) (j : Py.json) :
  calls (snd (get_subscriber_info self app_user_id w)) = (calls w ++ [q])%list ->
  session_request q = Responds resp ->
  raise_for_status resp = false ->
  json resp = Some j ->
  fst (get_subscriber_info self app_user_id w)
  = match j with
    | Py.JObj kvs =>
        match Py.assoc "subscriber" kvs with
        | Some sub => generate_subscriber_response (Py.of_json sub)
        | None => Raise (KeyError "subscriber")
        end
    | _ => Raise TypeError
    end.
Proof.
  rewrite get_subscriber_info_snd. unfold get_subscriber_info. cbv zeta.
  unfold bind at 1. rewrite make_request_run.
  destruct (dump_payload None) as [d|e];
    [|intros H; now apply not_snoc_self in H].
  destruct (request_headers _ _ _) as [h|e];
    [|intros H; now apply not_snoc_self in H].
  cbv zeta. cbn [snd calls]. intros H Hresp Hstatus Hjson.
  apply snoc_inj in H. rewrite H, Hresp.
  cbn [receive]. rewrite Hstatus, Hjson.
  unfold bind, lift.
  destruct j; cbn [Py.of_json Py.getitem fst]; try reflexivity.
  rewrite assoc_of_json.
  destruct (Py.assoc "subscriber" kvs) as [sub|]; cbn [option_map];
    [|reflexivity].
  now destruct (generate_subscriber_response (Py.of_json sub)).
Qed.

Lemma utf8_chars_from_nonempty (s cur : string) :
  Py.utf8_chars_from cur s <> [].
Proof.
  revert cur. induction s as [|c s IH]; intros cur; simpl; [discriminate|].
  destruct (Py.utf8_continuation c); [apply IH | discriminate].
Qed.

Lemma truthy_iter_nonempty (j : Py.json) (items : list Py.value) :
  Py.truthy (Py.of_json j) = true -> Py.iter (Py.of_json j) = Ok items ->
  items <> [].
Proof.
  destruct j; cbn [Py.of_json Py.truthy Py.iter]; try discriminate.
  - destruct s as [|c s]; [discriminate|]. intros _ [= <-].
    cbn [Py.utf8_chars]. intros H. apply map_eq_nil in H.
    now apply utf8_chars_from_nonempty in H.
  - destruct l; [discriminate|]. intros _ [= <-]. discriminate.
  - destruct kvs; [discriminate|]. intros _ [= <-]. discriminate.
Qed.

(** X16.  [is_user_subscribed] sends what [get_subscriber_info] sends and
    passes its exceptions on.  With a subscriber in hand it returns [False]
    when the subscriptions are empty (or otherwise falsy), and raises
    [AttributeError], or [TypeError] when the subscriptions cannot be
    iterated, when they are not: it never returns [True]. *)
Theorem is_user_subscribed_outcome (self : Client) (app_user_id : string)
  (w : World) :
  snd (is_user_subscribed self app_user_id w)
  = snd (get_subscriber_info self app_user_id w)
  /\ fst (is_user_subscribed self app_user_id w) <> Ok true
  /\ (forall e, fst (get_subscriber_info self app_user_id w) = Raise e ->
                fst (is_user_subscribed self app_user_id w) = Raise e)
  /\ (forall info,
        fst (get_subscriber_info self app_user_id w) = Ok info ->
        if Py.truthy (subscriptions info)
        then fst (is_user_subscribed self app_user_id w) = Raise AttributeError
             \/ fst (is_user_subscribed self app_user_id w) = Raise TypeError
        else fst (is_user_subscribed self app_user_id w) = Ok false).
Proof.
  split; [|split; [|split]].
  - unfold is_user_subscribed. now rewrite bind_snd_pure by pure_steps.
  - apply is_user_subscribed_never_true.
  - intros e H. unfold is_user_subscribed. now apply bind_fst_raise.
  - intros info H.
    destruct (get_subscriber_info self app_user_id w) as [[info'|e] w'] eqn:Hi;
      cbn [fst] in H; [injection H as ->|discriminate H].
    destruct (get_subscriber_info_of_json _ _ _ Hi) as [j Hj].
    unfold is_user_subscribed, bind. rewrite Hi, Hj.
    destruct (Py.truthy (Py.of_json j)) eqn:Ht; [|reflexivity].
    unfold lift.
    destruct (Py.iter (Py.of_json j)) as [items|e] eqn:Hit.
    + left. pose proof (truthy_iter_nonempty j Ht Hit) as Hne.
      destruct items as [|x items]; [now contradiction Hne|].
      cbn [Py.next].
      rewrite (@getattr_item_of_json j (x :: items) x "expires_date" Hit)
        by now left.
      reflexivity.
    + right. cbn [fst]. f_equal.
      destruct j; cbn [Py.of_json Py.iter] in Hit; try discriminate Hit;
        now injection Hit as <-.
Qed.

End SubscriberLookup.

Lemma get_subscriber_info_credential_witness :
  Client.init None (Some "") = Ok {| Client.public_key := None;
                                     Client.secret_key := Some "" |}
  /\ Client.calls
       (snd (@Client.get_subscriber_info
               (Fixtures.double Fixtures.serves_subscriber)
               {| Client.public_key := None; Client.secret_key := Some "" |}
               "u1" (Fixtures.fresh _)))
     = Client.calls (Fixtures.fresh Fixtures.serves_subscriber).
Proof.
  split; [reflexivity|].
  apply (@get_subscriber_info_credential
           (Fixtures.double Fixtures.serves_subscriber) None (Some "")
           {| Client.public_key := None; Client.secret_key := Some "" |}
           "u1" (Fixtures.fresh _) eq_refl).
  split; reflexivity.
Defined.

Lemma get_subscriber_info_unwraps_witness :
  fst (@Client.get_subscriber_info
         (Fixtures.double (Fixtures.answers 200 (Some (Py.JObj []))))
         Fixtures.public_only "u1" (Fixtures.fresh _))
  = Raise (KeyError "subscriber").
Proof.
  exact (@get_subscriber_info_unwraps
           (Fixtures.double (Fixtures.answers 200 (Some (Py.JObj []))))
           Fixtures.public_only "u1" (Fixtures.fresh _) _ _ (Py.JObj [])
           eq_refl eq_refl eq_refl eq_refl).
Defined.

(* ================================================================== *)
(** * Further properties of the other operations *)

Section OtherOperations.

Import Client Response.

Context {RT : Runtime}.

Ltac pure_steps :=
  intros; unfold bind, lift, ret, raise, datetime_now;
  repeat match goal with
         | |- context [match ?x with _ => _ end] => destruct x
         end;
  reflexivity.

(** The request behind a log that grew by one. *)
Lemma make_request_sent (self : Client) (method path : string)
  (payload platform : option Py.value) (key : option string) (timeout : Z)
  (w : World) (q : Request) :
  calls (snd (make_request self method path payload platform key timeout w))
  = (calls w ++ [q])%list ->
  exists d h,
    dump_payload payload = Ok d
    /\ request_headers self platform key = Ok h
    /\ q = {| method := method; url := base_api_url ++ Utils.encode path;
              headers := h; data := d; timeout := timeout |}
    /\ fst (make_request self method path payload platform key timeout w)
       = receive (session_request q).
Proof.
  rewrite make_request_run.
  destruct (dump_payload payload) as [d|e];
    [|intros H; now apply not_snoc_self in H].
  destruct (request_headers self platform key) as [h|e];
    [|intros H; now apply not_snoc_self in H].
  cbv zeta. cbn [snd calls fst]. intros H. apply snoc_inj in H as <-.
  exists d, h. auto.
Qed.

(** X17.  [get_offerings] never returns.  Its request, when one is sent, is
    a [GET] without body to the base URL followed directly by
    [subscribers/], no separator between them, with the [Platform] member
    itself as the [X-Platform] header; and when the exchange succeeds, the
    call raises [AttributeError], whatever the body. *)
Theorem get_offerings_always_raises (self : Client) (app_user_id : string)
  (platform : Enums.Platform) (w : World) :
  let run := get_offerings self app_user_id platform w in
  is_ok (fst run) = false
  /\ (forall q,
        calls (snd run) = (calls w ++ [q])%list ->
        Client.method q = "GET"
        /\ url q = "https://api.revenuecat.com/v1subscribers/"
                   ++ Utils.encode app_user_id ++ "/offerings"
        /\ data q = None
        /\ Py.assoc "X-Platform" (headers q)
           = Some (Py.PyEnum (Enums.OfPlatform platform))
        /\ (is_ok (receive (session_request q)) = true ->
            fst run = Raise AttributeError)).
Proof.
  cbv zeta. split; [apply get_offerings_never_returns|].
  intros q. unfold get_offerings. cbv zeta.
  rewrite bind_snd_pure by pure_steps. intros H.
  apply make_request_sent in H as (d & h & Hd & Hh & -> & Hf).
  cbn [dump_payload] in Hd. injection Hd as <-.
  cbn [Client.method url data headers].
  split; [reflexivity|]. split.
  { unfold Utils.encode. rewrite !quote_app. reflexivity. }
  split; [reflexivity|]. split.
  { unfold request_headers in Hh.
    destruct (key_token self "public"); [|discriminate Hh].
    injection Hh as <-. reflexivity. }
  unfold bind. revert Hf.
  destruct (make_request _ _ _ _ _ _ _ w) as [[v|e] w']; cbn [fst].
  - intros _ _. reflexivity.
  - intros <-. discriminate.
Qed.

(** X18.  [add_user_attribution] does not use the network, the IDFA or the
    advertising id it is given: whatever they are, it does the same, and
    the request it sends is a [POST] without body to the base URL followed
    directly by [subscribers/], the identifier and [/attribution]. *)
Theorem add_user_attribution_ignores_attribution (self : Client)
  (app_user_id : string) (network : Enums.AttributionSource)
  (rc_idfa rc_gps_adid : option string) (w : World) :
  add_user_attribution self app_user_id network rc_idfa rc_gps_adid w
  = add_user_attribution self app_user_id Enums.APPLE_SEARCH_ADS None None w
  /\ (forall q,
        calls (snd (add_user_attribution self app_user_id network rc_idfa
                      rc_gps_adid w)) = (calls w ++ [q])%list ->
        Client.method q = "POST"
        /\ url q = "https://api.revenuecat.com/v1subscribers/"
                   ++ Utils.encode app_user_id ++ "/attribution"
        /\ data q = None
        /\ Py.assoc "X-Platform" (headers q) = None).
Proof.
  split; [reflexivity|].
  intros q. unfold add_user_attribution. cbv zeta.
  rewrite bind_snd_pure by pure_steps. intros H.
  apply make_request_sent in H as (d & h & Hd & Hh & -> & _).
  cbn [dump_payload] in Hd. injection Hd as <-.
  cbn [Client.method url data headers].
  split; [reflexivity|]. split.
  { unfold Utils.encode. rewrite !quote_app. reflexivity. }
  split; [reflexivity|].
  unfold request_headers in Hh.
  destruct (key_token self "public"); [|discriminate Hh].
  injection Hh as <-. reflexivity.
Qed.

(** X19.  [update_subscriber_attrs] can always serialise its payload: with
    a public key on the client it sends exactly one request.  The body has
    the one member [attributes], an object with the keys of [attrs] in
    their order, and each attribute is written as the array of its value
    and its timestamp, not as an object with named members. *)
Theorem update_subscriber_attrs_body (self : Client) (app_user_id : string)
  (attrs : list (string * SubscriberAttribute)) (w : World) :
  let run := update_subscriber_attrs self app_user_id attrs w in
  (public_key self <> None ->
   exists q, calls (snd run) = (calls w ++ [q])%list)
  /\ (forall q,
        calls (snd run) = (calls w ++ [q])%list ->
        Client.method q = "POST"
        /\ url q = "https://api.revenuecat.com/v1/subscribers/"
                   ++ Utils.encode app_user_id ++ "/attributes"
        /\ data q
           = Some (Py.JObj
                     [("attributes",
                       Py.JObj
                         (map (fun kv =>
                                 (fst kv,
                                  Py.JArr [Py.JStr (value (snd kv));
                                           Py.JInt (updated_at_ms (snd kv))]))
                            attrs))])).
Proof.
  cbv zeta. unfold update_subscriber_attrs. cbv zeta.
  rewrite bind_snd_pure by pure_steps.
  assert (Hdump : dump_payload (Some (Py.PyDict [("attributes", attrs_object attrs)]))
                  = Ok (Some (Py.JObj
                     [("attributes",
                       Py.JObj
                         (map (fun kv =>
                                 (fst kv,
                                  Py.JArr [Py.JStr (value (snd kv));
                                           Py.JInt (updated_at_ms (snd kv))]))
                            attrs))]))).
  { cbn [dump_payload Py.dumps]. rewrite dumps_attrs_object. reflexivity. }
  split.
  - intros Hpk. rewrite make_request_run, Hdump.
    unfold request_headers, key_token.
    change (String.eqb "public" "public") with true. cbv iota.
    destruct (public_key self); [|now contradiction Hpk].
    cbv zeta. eexists. reflexivity.
  - intros q H.
    apply make_request_sent in H as (d & h & Hd & _ & -> & _).
    rewrite Hdump in Hd. injection Hd as <-.
    cbn [Client.method url data].
    split; [reflexivity|]. split; [|reflexivity].
    unfold Utils.encode. rewrite !quote_app. reflexivity.
Qed.

(** X20.  [create_purchase] with a payment mode fails: the payload holds
    the [PaymentMode] member, [json.dumps] raises [TypeError], and nothing is
    sent.  A request it does send goes to [/receipts] with the [Platform]
    member as the [X-Platform] header, and its body carries [is_restore] as
    the string [true] or [false], not as a JSON boolean, and the user
    identifier and the token as they were given, unencoded. *)
Theorem create_purchase_wire_format (self : Client) (app_user_id : string)
  (platform : Enums.Platform) (fetch_token : string)
  (product_id : option string) (price : option float)
  (currency : option string) (payment_mode : option Enums.PaymentMode)
  (introductory_price : option float) (is_restore : bool)
  (presented_offering_identifier : option string)
  (attributes : option (list (string * SubscriberAttribute))) (w : World) :
  let run :=
    create_purchase self app_user_id platform fetch_token product_id price
      currency payment_mode introductory_price is_restore
      presented_offering_identifier attributes w in
  (payment_mode = None \/ run = (Raise TypeError, w))
  /\ (forall q,
        calls (snd run) = (calls w ++ [q])%list ->
        Client.method q = "POST"
        /\ url q = "https://api.revenuecat.com/v1/receipts"
        /\ Py.assoc "X-Platform" (headers q)
           = Some (Py.PyEnum (Enums.OfPlatform platform))
        /\ exists kvs,
             data q = Some (Py.JObj kvs)
             /\ Py.assoc "is_restore" kvs
                = Some (Py.JStr (if is_restore then "true" else "false"))
             /\ Py.assoc "app_user_id" kvs = Some (Py.JStr app_user_id)
             /\ Py.assoc "fetch_token" kvs = Some (Py.JStr fetch_token)).
Proof.
  cbv zeta. split.
  - destruct payment_mode as [m|]; [right|now left].
    unfold create_purchase. cbv zeta. apply bind_raise.
    rewrite make_request_run.
    unfold create_purchase_payload, dump_payload.
    destruct product_id, price, currency; reflexivity.
  - intros q. unfold create_purchase. cbv zeta.
    rewrite bind_snd_pure by pure_steps. intros H.
    apply make_request_sent in H as (d & h & Hd & Hh & -> & _).
    cbn [Client.method url data headers].
    split; [reflexivity|]. split; [reflexivity|]. split.
    { unfold request_headers in Hh.
      destruct (key_token self "public"); [|discriminate Hh].
      injection Hh as <-. reflexivity. }
    destruct (dumps_or_none_attrs attributes) as (ja & Hja & _).
    unfold create_purchase_payload, dump_payload in Hd.
    destruct payment_mode as [m|].
    + destruct product_id, price, currency; simpl in Hd; discriminate Hd.
    + destruct product_id, price, currency, introductory_price,
        presented_offering_identifier; simpl in Hd; rewrite Hja in Hd;
        simpl in Hd; injection Hd as <-; eexists;
        (split; [reflexivity|]); repeat split; destruct is_restore; reflexivity.
Qed.

(** X21.  [grant_promotional_entitlement] cannot succeed: for every
    duration and start time the payload cannot be serialised, the call
    raises [TypeError] and the state is as before, with or without the
    secret key on the client. *)
Theorem grant_promotional_entitlement_never_sends (self : Client)
  (app_user_id entitlement_identifier : string)
  (duration : Enums.PromotionDuration) (start_time : datetime) (w : World) :
  Py.dumps (grant_promotional_entitlement_payload duration start_time)
  = Raise TypeError
  /\ grant_promotional_entitlement self app_user_id entitlement_identifier
       duration start_time w = (Raise TypeError, w).
Proof.
  split; [reflexivity|].
  unfold grant_promotional_entitlement. cbv zeta.
  apply bind_raise. rewrite make_request_run. reflexivity.
Qed.

(** X22.  The request of [revoke_promotinal_entitlements] goes to a URL in
    which the path is preceded and followed by an escaped line break and
    eight escaped spaces: the margins of the triple-quoted literal are part
    of the path. *)
Theorem revoke_promotinal_entitlements_url (self : Client)
  (app_user_id entitlement_identifier : string) (w : World) (q : Request) :
  calls (snd (revoke_promotinal_entitlements self app_user_id
                entitlement_identifier w)) = (calls w ++ [q])%list ->
  Client.method q = "POST"
  /\ data q = None
  /\ url q
     = "https://api.revenuecat.com/v1%0A%20%20%20%20%20%20%20%20/subscribers/"
       ++ Utils.encode app_user_id ++ "/entitlements/"
       ++ Utils.encode entitlement_identifier
       ++ "/revoke_promotionals%0A%20%20%20%20%20%20%20%20".
Proof.
  unfold revoke_promotinal_entitlements. cbv zeta.
  rewrite bind_snd_pure by pure_steps. intros H.
  apply make_request_sent in H as (d & h & Hd & _ & -> & _).
  cbn [dump_payload] in Hd. injection Hd as <-.
  cbn [Client.method url data].
  split; [reflexivity|]. split; [reflexivity|].
  unfold Utils.encode. rewrite !quote_app. reflexivity.
Qed.

(** X23.  When the exchange of [delete_subscriber] succeeds, the result is
    the [app_user_id] member of the body, whatever JSON value it is; an
    object without that member raises [KeyError], a body that is not an
    object [TypeError]. *)
Theorem delete_subscriber_returns_member (self : Client) (app_user_id : string)
  (w : World) (q : Request) (resp : HttpResponse) (j : Py.json) :
  calls (snd (delete_subscriber self app_user_id w)) = (calls w ++ [q])%list ->
  session_request q = Responds resp ->
  raise_for_status resp = false ->
  json resp = Some j ->
  Client.method q = "DELETE"
  /\ fst (delete_subscriber self app_user_id w)
     = match j with
       | Py.JObj kvs =>
           match Py.assoc "app_user_id" kvs with
           | Some v => Ok (Py.of_json v)
           | None => Raise (KeyError "app_user_id")
           end
       | _ => Raise TypeError
       end.
Proof.
  unfold delete_subscriber. cbv zeta.
  rewrite bind_snd_pure by pure_steps. intros H Hresp Hstatus Hjson.
  apply make_request_sent in H as (d & h & _ & _ & -> & Hf).
  split; [reflexivity|].
  rewrite Hresp in Hf. cbn [receive] in Hf. rewrite Hstatus, Hjson in Hf.
  unfold bind, lift.
  destruct (make_request _ _ _ _ _ _ _ w) as [[v|e] w']; cbn [fst] in Hf;
    [injection Hf as ->|discriminate Hf].
  destruct j; cbn [Py.of_json Py.getitem fst]; try reflexivity.
  rewrite assoc_of_json.
  now destruct (Py.assoc "app_user_id" kvs).
Qed.

End OtherOperations.

Lemma revoke_promotinal_entitlements_url_witness :
  exists q,
    Client.calls
      (snd (@Client.revoke_promotinal_entitlements
              (Fixtures.double Fixtures.serves_subscriber)
              Fixtures.secret_only "u 1" "pro" (Fixtures.fresh _))) = [q]
    /\ Client.url q
       = "https://api.revenuecat.com/v1%0A%20%20%20%20%20%20%20%20/subscribers/u%201/entitlements/pro/revoke_promotionals%0A%20%20%20%20%20%20%20%20".
Proof.
  eexists. split; [reflexivity|].
  exact (proj2 (proj2 (@revoke_promotinal_entitlements_url
                         (Fixtures.double Fixtures.serves_subscriber)
                         Fixtures.secret_only "u 1" "pro" (Fixtures.fresh _)
                         _ eq_refl))).
Defined.

Lemma delete_subscriber_returns_member_witness :
  fst (@Client.delete_subscriber
         (Fixtures.double
            (Fixtures.answers 200 (Some (Py.JObj [("app_user_id", Py.JInt 7)]))))
         Fixtures.secret_only "u1" (Fixtures.fresh _))
  = Ok (Py.PyInt 7).
Proof.
  exact (proj2 (@delete_subscriber_returns_member
                  (Fixtures.double
                     (Fixtures.answers 200
                        (Some (Py.JObj [("app_user_id", Py.JInt 7)]))))
                  Fixtures.secret_only "u1" (Fixtures.fresh _) _ _
                  (Py.JObj [("app_user_id", Py.JInt 7)])
                  eq_refl eq_refl eq_refl eq_refl)).
Defined.

(* ================================================================== *)
(** * The request and the result of every operation *)

Section EveryOperation.

Import Client Response.

Context {RT : Runtime}.

Ltac pure_steps :=
  intros; unfold bind, lift, ret, raise, datetime_now;
  repeat match goal with
         | |- context [match ?x with _ => _ end] => destruct x
         end;
  reflexivity.

(** X24.  The request a public operation sends has the method and the
    encoded path of the operation, a timeout of five seconds, the
    serialised payload of the operation as its body, and as its only
    credential the key of the tier the operation asks for: the operations
    of the secret tier never send the public key, and none sends both. *)
Theorem operation_request (self : Client) (op : operation) (w : World)
  (q : Request) :
  calls (snd (perform self op w)) = (calls w ++ [q])%list ->
  Client.method q = method_of op
  /\ url q = base_api_url ++ Utils.encode (path_of op)
  /\ Client.timeout q = 5%Z
  /\ dump_payload (payload_of op) = Ok (data q)
  /\ Py.assoc "X-Platform" (headers q) = platform_of op
  /\ (exists token,
        (if String.eqb (key_of self op) "public"
         then public_key self else secret_key self) = Some token
        /\ Py.assoc "Authorization" (headers q)
           = Some (Py.PyStr ("Bearer " ++ token)))
  /\ (forall name, In name (map fst (headers q)) ->
                   name = "X-Platform" \/ name = "Authorization").
Proof.
  rewrite perform_snd. intros H.
  apply make_request_sent in H as (d & h & Hd & Hh & -> & _).
  cbn [Client.method url Client.timeout data headers].
  split; [reflexivity|]. split; [reflexivity|]. split; [reflexivity|].
  split; [exact Hd|].
  unfold request_headers, key_token in Hh.
  destruct (if String.eqb (key_of self op) "public"
            then public_key self else secret_key self) as [token|];
    [|destruct (platform_of op); discriminate Hh].
  destruct (platform_of op) as [p|]; injection Hh as <-.
  - split; [reflexivity|]. split; [exists token; split; reflexivity|].
    cbn. intuition.
  - split; [reflexivity|]. split; [exists token; split; reflexivity|].
    cbn. intuition.
Qed.

Ltac whole_body :=
  intros q v;
  unfold create_purchase, revoke_promotinal_entitlements,
    revoke_google_subscription, defer_google_subscription,
    refund_google_subscription, override_current_offering,
    delete_current_offering_override;
  cbv zeta;
  rewrite bind_snd_pure by pure_steps; intros H Hv;
  apply make_request_sent in H as (d & h & _ & _ & -> & Hf);
  rewrite Hv in Hf; unfold bind, lift;
  match goal with
  | |- context [make_request ?a ?b ?c ?d0 ?e ?f ?g ?w0] =>
      destruct (make_request a b c d0 e f g w0) as [[v'|e'] w'];
      cbn [fst] in Hf; [injection Hf as ->; reflexivity | discriminate Hf]
  end.

(** X25.  The operations that return a subscriber after a [POST] or a
    [DELETE] decode the whole body of the answer, not its [subscriber]
    member: when the exchange succeeds with the value [v], the result is
    what [generate_subscriber_response] makes of [v] itself. *)
Theorem subscriber_operations_decode_whole_body (self : Client)
  (app_user_id other : string) (expiry_time : datetime)
  (platform : Enums.Platform) (fetch_token : string)
  (product_id : option string) (price : option float)
  (currency : option string) (payment_mode : option Enums.PaymentMode)
  (introductory_price : option float) (is_restore : bool)
  (presented_offering_identifier : option string)
  (attributes : option (list (string * SubscriberAttribute))) (w : World) :
  (forall q v,
      calls (snd (revoke_google_subscription self app_user_id other w))
      = (calls w ++ [q])%list ->
      receive (session_request q) = Ok v ->
      fst (revoke_google_subscription self app_user_id other w)
      = generate_subscriber_response v)
  /\ (forall q v,
        calls (snd (defer_google_subscription self app_user_id other
                      expiry_time w)) = (calls w ++ [q])%list ->
        receive (session_request q) = Ok v ->
        fst (defer_google_subscription self app_user_id other expiry_time w)
        = generate_subscriber_response v)
  /\ (forall q v,
        calls (snd (refund_google_subscription self app_user_id other w))
        = (calls w ++ [q])%list ->
        receive (session_request q) = Ok v ->
        fst (refund_google_subscription self app_user_id other w)
        = generate_subscriber_response v)
  /\ (forall q v,
        calls (snd (override_current_offering self app_user_id other w))
        = (calls w ++ [q])%list ->
        receive (session_request q) = Ok v ->
        fst (override_current_offering self app_user_id other w)
        = generate_subscriber_response v)
  /\ (forall q v,
        calls (snd (delete_current_offering_override self app_user_id w))
        = (calls w ++ [q])%list ->
        receive (session_request q) = Ok v ->
        fst (delete_current_offering_override self app_user_id w)
        = generate_subscriber_response v)
  /\ (forall q v,
        calls (snd (revoke_promotinal_entitlements self app_user_id other w))
        = (calls w ++ [q])%list ->
        receive (session_request q) = Ok v ->
        fst (revoke_promotinal_entitlements self app_user_id other w)
        = generate_subscriber_response v)
  /\ (forall q v,
        calls (snd (create_purchase self app_user_id platform fetch_token
                      product_id price currency payment_mode
                      introductory_price is_restore
                      presented_offering_identifier attributes w))
        = (calls w ++ [q])%list ->
        receive (session_request q) = Ok v ->
        fst (create_purchase self app_user_id platform fetch_token
               product_id price currency payment_mode introductory_price
               is_restore presented_offering_identifier attributes w)
        = generate_subscriber_response v).
Proof.
  repeat split; whole_body.
Qed.

End EveryOperation.

Lemma operation_request_witness :
  exists q,
    Client.calls
      (snd (Client.perform
              {| Client.public_key := Some "pk"; Client.secret_key := Some "sk" |}
              (@Client.DeleteSubscriber
                 (Fixtures.double Fixtures.serves_subscriber) "u1")
              (Fixtures.fresh _))) = [q]
    /\ Client.method q = "DELETE"
    /\ Py.assoc "Authorization" (Client.headers q) = Some (Py.PyStr "Bearer sk").
Proof.
  eexists. split; [reflexivity|].
  pose proof (@operation_request
                (Fixtures.double Fixtures.serves_subscriber)
                {| Client.public_key := Some "pk"; Client.secret_key := Some "sk" |}
                (Client.DeleteSubscriber "u1") (Fixtures.fresh _) _ eq_refl)
    as (Hm & _ & _ & _ & _ & (token & Ht & Ha) & _).
  injection Ht as <-.
  exact (conj Hm Ha).
Defined.

(* ================================================================== *)
(** * Missing credentials and omitted arguments, operation by operation *)

Section CredentialAndDefaults.

Import Client Response.

Context {RT : Runtime}.

Ltac pure_steps :=
  intros; unfold bind, lift, ret, raise, datetime_now;
  repeat match goal with
         | |- context [match ?x with _ => _ end] => destruct x
         end;
  reflexivity.

(** The payloads that cannot be serialised are the ones that hold an
    enumeration member. *)
Lemma dump_payload_of (op : operation) :
  (payload_has_enum op = true ->
   dump_payload (payload_of op) = Raise TypeError)
  /\ (payload_has_enum op = false ->
      is_ok (dump_payload (payload_of op)) = true).
Proof.
  destruct op; cbn [payload_of payload_has_enum];
    try (split; [discriminate | reflexivity]).
  - split; [discriminate|]. intros _.
    cbn [dump_payload Py.dumps]. rewrite dumps_attrs_object. reflexivity.
  - destruct payment_mode as [m|]; split; try discriminate; intros _.
    + unfold create_purchase_payload, dump_payload.
      destruct product_id, price, currency; reflexivity.
    + destruct (create_purchase_payload_dumps app_user_id fetch_token
                  product_id price currency introductory_price is_restore
                  presented_offering_identifier attributes)
        as (kvs & -> & _).
      reflexivity.
  - split; [reflexivity | discriminate].
Qed.

(** X26.  When the key tier an operation asks for is not set on the client,
    the operation raises and leaves the state as it was, so nothing is
    sent.  It raises the builtin [Exception] whose message names the tier,
    except for [grant_promotional_entitlement] and for [create_purchase]
    with a payment mode, whose payload holds an enumeration member: these
    raise the [TypeError] of [json.dumps]. *)
Theorem missing_credential_outcome (self : Client) (op : operation)
  (w : World) :
  key_token self (key_of self op) = None ->
  perform self op w
  = (Raise (if payload_has_enum op then TypeError
            else Exception_ ("This functionality requires "
                               ++ key_of self op ++ " key to be set")),
     w).
Proof.
  intros H. rewrite (perform_missing_key self op w H).
  destruct (dump_payload_of op) as [Ht Hf].
  destruct (payload_has_enum op).
  - now rewrite (Ht eq_refl).
  - specialize (Hf eq_refl).
    destruct (dump_payload (payload_of op)); [reflexivity | discriminate Hf].
Qed.

(** X27.  [create_purchase] without payment mode, on a client with a public
    key, sends exactly one request; its body is an object with the ten keys
    of the payload in their order, in which the payment mode and every
    optional argument left at [None] have the value [null]: an omitted
    argument is sent as [null], not dropped. *)
Theorem create_purchase_sends_nulls (self : Client) (token : string)
  (app_user_id : string) (platform : Enums.Platform) (fetch_token : string)
  (product_id : option string) (price : option float)
  (currency : option string) (introductory_price : option float)
  (is_restore : bool) (presented_offering_identifier : option string)
  (attributes : option (list (string * SubscriberAttribute))) (w : World) :
  public_key self = Some token ->
  exists q kvs,
    calls (snd (create_purchase self app_user_id platform fetch_token
                  product_id price currency None introductory_price
                  is_restore presented_offering_identifier attributes w))
    = (calls w ++ [q])%list
    /\ data q = Some (Py.JObj kvs)
    /\ map fst kvs
       = ["app_user_id"; "fetch_token"; "product_id"; "price"; "currency";
          "payment_mode"; "introductory_price"; "is_restore";
          "presented_offering_identifier"; "attributes"]
    /\ Py.assoc "payment_mode" kvs = Some Py.JNull
    /\ (product_id = None -> Py.assoc "product_id" kvs = Some Py.JNull)
    /\ (price = None -> Py.assoc "price" kvs = Some Py.JNull)
    /\ (currency = None -> Py.assoc "currency" kvs = Some Py.JNull)
    /\ (introductory_price = None ->
        Py.assoc "introductory_price" kvs = Some Py.JNull)
    /\ (presented_offering_identifier = None ->
        Py.assoc "presented_offering_identifier" kvs = Some Py.JNull)
    /\ (attributes = None -> Py.assoc "attributes" kvs = Some Py.JNull).
Proof.
  intros Hpk.
  destruct (create_purchase_payload_dumps app_user_id fetch_token product_id
              price currency introductory_price is_restore
              presented_offering_identifier attributes)
    as (kvs & Hd & Hrest).
  unfold create_purchase. cbv zeta.
  rewrite bind_snd_pure by pure_steps.
  rewrite make_request_run, Hd.
  unfold request_headers, key_token.
  change (String.eqb "public" "public") with true. cbv iota.
  rewrite Hpk. cbv zeta.
  eexists. exists kvs. split; [reflexivity|]. split; [reflexivity|].
  exact Hrest.
Qed.

End CredentialAndDefaults.

Lemma missing_credential_outcome_witness :
  Client.perform Fixtures.public_only
    (@Client.RefundGoogleSubscription
       (Fixtures.double Fixtures.serves_subscriber) "u1" "monthly")
    (Fixtures.fresh _)
  = (Raise (Exception_ "This functionality requires secret key to be set"),
     Fixtures.fresh _).
Proof.
  exact (@missing_credential_outcome
           (Fixtures.double Fixtures.serves_subscriber) Fixtures.public_only
           (Client.RefundGoogleSubscription "u1" "monthly") (Fixtures.fresh _)
           eq_refl).
Defined.

Lemma create_purchase_sends_nulls_witness :
  exists q kvs,
    Client.calls
      (snd (@Client.create_purchase
              (Fixtures.double Fixtures.serves_subscriber)
              Fixtures.public_only "u1" Enums.ANDROID "token" (Some "monthly")
              None None None None true None None (Fixtures.fresh _))) = [q]
    /\ Client.data q = Some (Py.JObj kvs)
    /\ Py.assoc "product_id" kvs = Some (Py.JStr "monthly")
    /\ Py.assoc "price" kvs = Some Py.JNull
    /\ Py.assoc "attributes" kvs = Some Py.JNull
    /\ Py.assoc "is_restore" kvs = Some (Py.JStr "true").
Proof.
  destruct (@create_purchase_sends_nulls
              (Fixtures.double Fixtures.serves_subscriber)
              Fixtures.public_only "pk" "u1" Enums.ANDROID "token"
              (Some "monthly") None None None true None None
              (Fixtures.fresh _) eq_refl)
    as (q & kvs & Hc & Hd & _ & _ & _ & Hprice & _ & _ & _ & Hattrs).
  exists q, kvs.
  cbn in Hc. injection Hc as Hc. subst q. cbn in Hd. injection Hd as Hd.
  subst kvs. repeat split.
Defined.
